(** * Graph-RAG-Framework: the ingestion pipeline, embedded and verified

    A shallow embedding of the Python sources
    [utils/preprocessing.py], [components/embeddings.py],
    [components/llms.py], [components/graph_db.py],
    [components/knowledge_graph.py], [options/*.py] and [train.py].

    Python values that the code inspects dynamically (option values,
    metadata values) are [pyval]s; objects with dynamic attributes
    ([argparse.Namespace], document metadata) are finite maps from
    attribute names; exceptions are values of [exn] carried by [result].
    Everything the code calls but does not own (the file system, the PDF
    loader, the text splitter, the model providers, the graph database)
    is a field of the record [World]: theorems quantify over it. *)

From Stdlib Require Import ZArith List Ascii String Bool Lia.
From stdpp Require Import base option list strings pretty gmap.
Import ListNotations.
Local Open Scope string_scope.

(** ** Python values and exceptions *)

Inductive pyval :=
| PNone
| PBool (b : bool)
| PInt (z : Z)
| PStr (s : string)
| PList (l : list string).

#[global] Instance pyval_eq_dec : EqDecision pyval.
Proof. solve_decision. Defined.

(** Truth value of an object, as tested by [if], [not], [or]. *)
Definition truthy (v : pyval) : bool :=
  match v with
  | PNone => false
  | PBool b => b
  | PInt z => negb (Z.eqb z 0)
  | PStr s => negb (String.eqb s "")
  | PList l => match l with [] => false | _ => true end
  end.

(** [a or b], with [b] already evaluated. *)
Definition py_or (a b : pyval) : pyval := if truthy a then a else b.

Fixpoint join (sep : string) (l : list string) : string :=
  match l with
  | [] => ""
  | [x] => x
  | x :: r => x +:+ sep +:+ join sep r
  end.

Definition hex_digit (n : nat) : ascii :=
  ascii_of_nat (if Nat.ltb n 10 then 48 + n else 87 + n).

Definition backslash : ascii := "092".
Definition double_quote : ascii := "034".

(** One character of [repr(s)] between the quotes [q]: the backslash and
    the quote are escaped, the control characters are written as
    backslash-t, backslash-n, backslash-r or backslash-x and two
    hexadecimal digits. *)
Definition repr_char (q c : ascii) : string :=
  let n := nat_of_ascii c in
  if Ascii.eqb c backslash || Ascii.eqb c q then String backslash (String c EmptyString)
  else if Nat.eqb n 9 then String backslash "t"
  else if Nat.eqb n 10 then String backslash "n"
  else if Nat.eqb n 13 then String backslash "r"
  else if Nat.ltb n 32 || Nat.eqb n 127 then
    String backslash
      (String "x" (String (hex_digit (n / 16))
                     (String (hex_digit (n mod 16)) EmptyString)))
  else String c EmptyString.

Fixpoint repr_chars (q : ascii) (s : string) : string :=
  match s with
  | EmptyString => EmptyString
  | String c r => repr_char q c +:+ repr_chars q r
  end.

Fixpoint contains (c : ascii) (s : string) : bool :=
  match s with
  | EmptyString => false
  | String c' r => Ascii.eqb c c' || contains c r
  end.

(** [repr(s)] of a string: in single quotes, unless the string holds a
    single quote and no double quote. *)
Definition py_repr (s : string) : string :=
  let q := if contains "'" s && negb (contains double_quote s) then double_quote
           else "'"%char in
  String q (repr_chars q s) +:+ String q EmptyString.

(** [str(v)], used by f-strings; the items of a list are shown by their
    [repr]. *)
Definition py_str (v : pyval) : string :=
  match v with
  | PNone => "None"
  | PBool true => "True"
  | PBool false => "False"
  | PInt z => pretty z
  | PStr s => s
  | PList l => "[" +:+ join ", " (map py_repr l) +:+ "]"
  end.

Definition type_name (v : pyval) : string :=
  match v with
  | PNone => "NoneType"
  | PBool _ => "bool"
  | PInt _ => "int"
  | PStr _ => "str"
  | PList _ => "list"
  end.

Inductive exn :=
| AttributeError (obj attr : string)
| FileNotFoundError (msg : string)
| ValueError (msg : string)
| TypeError (msg : string)
| RuntimeError (msg : string)
| LibraryError (msg : string)   (* an exception raised inside a library *)
| SystemExit (code : Z).

#[global] Instance exn_eq_dec : EqDecision exn.
Proof. solve_decision. Defined.

(** [str(e)]. *)
Definition exn_str (e : exn) : string :=
  match e with
  | AttributeError obj attr =>
      "'" +:+ obj +:+ "' object has no attribute '" +:+ attr +:+ "'"
  | FileNotFoundError m | ValueError m | TypeError m
  | RuntimeError m | LibraryError m => m
  | SystemExit c => pretty c
  end.

(** [SystemExit] derives from [BaseException] only: [except Exception]
    does not catch it. *)
Definition is_Exception (e : exn) : bool :=
  match e with SystemExit _ => false | _ => true end.

Inductive result (A : Type) :=
| Ok (a : A)
| Raise (e : exn).
Arguments Ok {A} a.
Arguments Raise {A} e.

Definition bind {A B} (r : result A) (k : A -> result B) : result B :=
  match r with
  | Ok a => k a
  | Raise e => Raise e
  end.

Declare Scope py_scope.
Delimit Scope py_scope with py.
Notation "x <- r ; k" := (bind r (fun x => k))
  (at level 100, r at next level, right associativity) : py_scope.
Local Open Scope py_scope.

(** [try: body except Exception as e: raise handler(e)]. *)
Definition try_except {A} (body : result A) (handler : exn -> exn) : result A :=
  match body with
  | Ok a => Ok a
  | Raise e => if is_Exception e then Raise (handler e) else Raise e
  end.

(** ** Objects with dynamic attributes *)

Abbreviation Namespace := (gmap string pyval).

(** [ns.name] on an [argparse.Namespace]. *)
Definition getattr (ns : Namespace) (name : string) : result pyval :=
  match ns !! name with
  | Some v => Ok v
  | None => Raise (AttributeError "Namespace" name)
  end.

(** [getattr(ns, name, default)]. *)
Definition getattr_default (ns : Namespace) (name : string) (d : pyval) : pyval :=
  match ns !! name with
  | Some v => v
  | None => d
  end.

(** [obj.name] for a method: the class either defines it, and the lookup
    gives its body, or the lookup raises. *)
Definition lookup_method {F} (cls name : string)
    (table : string -> option F) : result F :=
  match table name with
  | Some f => Ok f
  | None => Raise (AttributeError cls name)
  end.

(** ** Strings *)

Definition lower_ascii (c : ascii) : ascii :=
  let n := nat_of_ascii c in
  if Nat.leb 65 n && Nat.leb n 90 then ascii_of_nat (n + 32) else c.

(** [s.lower()].  The strings of this development are texts of ASCII
    characters, as all the literals of the sources are; on them
    [str.lower] maps [A]-[Z] to [a]-[z] and leaves every other character
    alone. *)
Fixpoint lower (s : string) : string :=
  match s with
  | EmptyString => EmptyString
  | String c r => String (lower_ascii c) (lower r)
  end.

Definition is_space (c : ascii) : bool :=
  let n := nat_of_ascii c in
  Nat.eqb n 32 || (Nat.leb 9 n && Nat.leb n 13) || (Nat.leb 28 n && Nat.leb n 31).

Fixpoint lstrip (s : string) : string :=
  match s with
  | String c r => if is_space c then lstrip r else s
  | EmptyString => EmptyString
  end.

(** [bool(s.strip())]: some character of [s] is not white space. *)
Definition strip_nonempty (s : string) : bool :=
  negb (String.eqb (lstrip s) "").

Definition str_in (s : string) (l : list string) : bool :=
  existsb (String.eqb s) l.

(** Iterating a value as a sequence of strings ([for e in v]). *)
Definition iter_strings (v : pyval) : result (list string) :=
  match v with
  | PList l => Ok l
  | PStr s => Ok (map (fun c => String c EmptyString) (list_ascii_of_string s))
  | _ => Raise (TypeError ("'" +:+ type_name v +:+ "' object is not iterable"))
  end.

(** ** Documents, paths and the outside world *)

(** A LangChain [Document]. *)
Record Document := {
  page_content : string;
  metadata : gmap string pyval;
}.

(** A [pathlib.Path] with the two parts the code reads. *)
Record Path := {
  path_str : string;   (* str(path) *)
  name : string;       (* path.name *)
  suffix : string;     (* path.suffix *)
}.

(** A node, a relationship and a graph document of the graph transformer. *)
Record Node := {
  node_id : string;
  node_type : string;    (* the label *)
}.

Record Relationship := {
  rel_source : Node;
  rel_target : Node;
  rel_type : string;
}.

Record GraphDocument := {
  nodes : list Node;
  relationships : list Relationship;
  source : Document;
}.

(** The arguments [create_knowledge_graph] gives to [LLMGraphTransformer]. *)
Record TransformerArgs := {
  allowed_nodes : pyval;
  allowed_relationships : pyval;
  node_properties : pyval;
  relationship_properties : pyval;
}.

(** The keyword arguments of [Neo4jGraph(...)]. *)
Record Neo4jGraph := {
  url : pyval;
  username : pyval;
  password : pyval;
  database : pyval;
}.

(** The keyword arguments of [Neo4jVector.from_existing_graph(...)]. *)
Record Neo4jVector := {
  vec_embedding : pyval;
  vec_graph : Neo4jGraph;
  vec_node_label : pyval;
  vec_text_node_properties : pyval;
  vec_embedding_node_property : pyval;
  vec_index_name : pyval;
  vec_keyword_index_name : pyval;
  vec_search_type : pyval;
}.

(** The keyword arguments of a chat-model constructor. *)
Record ChatArgs := {
  chat_class : string;
  chat_model : pyval;
  chat_temperature : pyval;
  chat_max_tokens : pyval;
  chat_request_timeout : pyval;
}.

(** Everything the repository calls and does not own.  [DB] is the state
    of the graph database; calls that reach the server take and return
    it. *)
Record World := {
  DB : Type;
  (* file system *)
  str_Path : string -> string;                       (* str(Path(s)) *)
  dir_exists : string -> bool;                       (* Path(s).exists() *)
  rglob : string -> list Path;                       (* Path(s).rglob("*") *)
  (* langchain *)
  load_and_split : string -> result (list Document); (* PyPDFLoader(p).load_and_split() *)
  split_documents :                                  (* RecursiveCharacterTextSplitter(cs, co).split_documents(docs) *)
    pyval -> pyval -> list Document -> result (list Document);
  new_embeddings : string -> result pyval;           (* OpenAIEmbeddings() and the like, by class name *)
  new_chat_model : ChatArgs -> result pyval;         (* ChatOpenAI(...) and the like *)
  convert_to_graph_documents :                       (* LLMGraphTransformer(llm, ...).convert_to_graph_documents(docs) *)
    pyval -> TransformerArgs -> list Document -> result (list GraphDocument);
  (* neo4j *)
  neo4j_connect : Neo4jGraph -> DB -> result unit;   (* Neo4jGraph(...) *)
  neo4j_query : Neo4jGraph -> string -> DB -> result unit * DB;
  neo4j_add_graph_documents :
    Neo4jGraph -> list GraphDocument -> bool -> DB -> result unit * DB;
  neo4j_get_schema : Neo4jGraph -> DB -> result string;
  neo4j_from_existing_graph : Neo4jVector -> DB -> result unit * DB;
  Hits : Type;                                       (* what a search returns *)
  vector_search :                                    (* vector.similarity_search[_with_score] and hybrid_search[_with_score] *)
    Neo4jVector -> bool -> bool -> string -> pyval -> DB -> result Hits * DB;
  cypher_chain_invoke :                              (* GraphCypherQAChain.from_llm(...).invoke(...) *)
    pyval -> Neo4jGraph -> string -> string -> string -> bool -> DB
    -> result (option string) * DB;
}.

(** ** utils/preprocessing.py: DocumentProcessor *)

Module DocumentProcessor.

Section Methods.
Context (w : World) (_opt : Namespace).

(** [_load_pdf]: the pages of the PDF, each with the file's provenance
    merged into its metadata. *)
Definition _load_pdf (path : Path) : result (list Document) :=
  pages <- load_and_split w (path_str path);
  Ok (map (fun p =>
             {| page_content := page_content p;
                metadata := <["file_name" := PStr (name path)]>
                              (<["source" := PStr (path_str path)]> (metadata p)) |})
          pages).

(** The methods of the class that take a path: [_load_pdf] is the only
    one.  ([_load_text] is called below and defined nowhere.) *)
Definition path_methods (m : string) : option (Path -> result (list Document)) :=
  if String.eqb m "_load_pdf" then Some _load_pdf else None.

(** The methods of the class that take a text: there is none.
    ([_clean_text] is called below and defined nowhere.) *)
Definition text_methods (m : string) : option (string -> result string) :=
  None.

(** [self.m(path)] and [self.m(text)]. *)
Definition self_path_call (m : string) (path : Path) : result (list Document) :=
  f <- lookup_method "DocumentProcessor" m path_methods;
  f path.

Definition self_text_call (m : string) (text : string) : result string :=
  f <- lookup_method "DocumentProcessor" m text_methods;
  f text.

(** The body of [for path in input_dir.rglob("*")], from the documents
    gathered so far. *)
Fixpoint load_paths (exts : list string) (paths : list Path)
    (documents : list Document) : result (list Document) :=
  match paths with
  | [] => Ok documents
  | path :: rest =>
      if str_in (lower (suffix path)) exts then
        if String.eqb (lower (suffix path)) ".pdf" then
          pages <- self_path_call "_load_pdf" path;
          load_paths exts rest (documents ++ pages)
        else if str_in (lower (suffix path)) [".txt"; ".md"] then
          pages <- self_path_call "_load_text" path;
          load_paths exts rest (documents ++ pages)
        else
          Raise (ValueError ("Unsupported file extension: " +:+ suffix path))
      else load_paths exts rest documents
  end.

(** [Path(v)]: the path is kept as the string it is made from;
    [str_Path] gives its text, [dir_exists] and [rglob] look it up. *)
Definition to_path (v : pyval) : result string :=
  match v with
  | PStr s => Ok s
  | _ => Raise (TypeError ("expected str, bytes or os.PathLike object, not "
                           +:+ type_name v))
  end.

Definition _load_all_documents : result (list Document) :=
  d <- getattr _opt "input_dir";
  input_dir <- to_path d;
  es <- iter_strings (getattr_default _opt "extensions" (PList [".pdf"]));
  let exts := map lower es in
  if negb (dir_exists w input_dir) then
    Raise (FileNotFoundError
             ("Input directory not found: " +:+ str_Path w input_dir))
  else load_paths exts (rglob w input_dir) [].

(** Step 2 of [process_documents]: the cleaning loop. *)
Fixpoint clean_docs (raw_docs cleaned_docs : list Document)
    : result (list Document) :=
  match raw_docs with
  | [] => Ok cleaned_docs
  | d :: rest =>
      text <- self_text_call "_clean_text" (page_content d);
      if strip_nonempty text then
        clean_docs rest
          (cleaned_docs ++ [{| page_content := text; metadata := metadata d |}])
      else clean_docs rest cleaned_docs
  end.

(** The assignment in the body of step 4:
    [doc.metadata = {**doc.metadata, "chunk_index": idx, ...}]. *)
Definition set_chunk_metadata (chunk_size chunk_overlap : pyval) (idx : nat)
    (doc : Document) : Document :=
  {| page_content := page_content doc;
     metadata := <["chunk_overlap" := chunk_overlap]>
                   (<["chunk_size" := chunk_size]>
                      (<["chunk_index" := PInt (Z.of_nat idx)]> (metadata doc))) |}.

(** Step 4: [for idx, doc in enumerate(chunked_docs)], from index [idx].
    The splitter builds a new [Document] for every chunk it returns, so
    the list holds no object twice and the loop is a map over values;
    [index_loop] below is the same loop on references. *)
Fixpoint add_chunk_index (chunk_size chunk_overlap : pyval) (idx : nat)
    (chunked_docs : list Document) : list Document :=
  match chunked_docs with
  | [] => []
  | doc :: rest =>
      set_chunk_metadata chunk_size chunk_overlap idx doc
      :: add_chunk_index chunk_size chunk_overlap (S idx) rest
  end.

(** Step 4 on objects: [chunked_docs] is a list of references into a
    heap of [Document]s and the assignment updates the object a
    reference points to. *)
Fixpoint index_loop (chunk_size chunk_overlap : pyval) (idx : nat)
    (chunked_docs : list nat) (heap : gmap nat Document) : gmap nat Document :=
  match chunked_docs with
  | [] => heap
  | ref :: rest =>
      index_loop chunk_size chunk_overlap (S idx) rest
        (alter (set_chunk_metadata chunk_size chunk_overlap idx) ref heap)
  end.

Definition process_documents : result (list Document) :=
  raw_docs <- _load_all_documents;
  cleaned_docs <- clean_docs raw_docs [];
  chunk_size <- getattr _opt "chunk_size";
  chunk_overlap <- getattr _opt "chunk_overlap";
  chunked_docs <- split_documents w chunk_size chunk_overlap cleaned_docs;
  Ok (add_chunk_index chunk_size chunk_overlap 0 chunked_docs).

End Methods.

(** The value recorded under ["chunk_index"] in a chunk's metadata. *)
Definition chunk_index (doc : Document) : option pyval :=
  metadata doc !! "chunk_index".

(** A path the directory scan gets past: its extension is not allowed,
    or it is a PDF that loads. *)
Definition passes (w : World) (exts : list string) (q : Path) : bool :=
  if str_in (lower (suffix q)) exts then
    String.eqb (lower (suffix q)) ".pdf"
    && match load_and_split w (path_str q) with Ok _ => true | Raise _ => false end
  else true.

(** A path with an allowed [.txt] or [.md] extension. *)
Definition is_text (exts : list string) (p : Path) : bool :=
  str_in (lower (suffix p)) exts && str_in (lower (suffix p)) [".txt"; ".md"].

(** The two exceptions of a lookup that finds no method. *)
Definition no_clean_text : exn := AttributeError "DocumentProcessor" "_clean_text".
Definition no_load_text : exn := AttributeError "DocumentProcessor" "_load_text".

End DocumentProcessor.

(** ** options/base_options.py and options/train_options.py *)

Module TrainOptions.

Inductive ArgType := TStr | TInt | TBool | TList.

(** One [parser.add_argument("--dest", type=..., default=..., choices=...)]. *)
Record Argument := {
  dest : string;
  arg_type : ArgType;
  default : pyval;
  choices : option (list string);
}.

Definition arg (d : string) (t : ArgType) (v : pyval) : Argument :=
  {| dest := d; arg_type := t; default := v; choices := None |}.

(** [BaseOptions.initialize]. *)
Definition base_arguments : list Argument :=
  [ arg "LangChainAPIKey" TStr (PStr "<yoour-api-key>");
    arg "OpenAPIKey" TStr (PStr "<your-api-key>");
    arg "Neo4jURI" TStr (PStr "neo4j+s://your-neo4j-instance");
    arg "Neo4jUserName" TStr (PStr "your-username");
    arg "Neo4jPassword" TStr (PStr "your-password");
    arg "Neo4jDatabase" TStr (PStr "your-database") ].

(** [TrainOptions.initialize]: the base arguments, then its own. *)
Definition arguments : list Argument :=
  base_arguments ++
  [ arg "LLMProvider" TList (PList ["OpenAI"; "Antropic"; "Google"]);
    arg "OpenAILLM" TList (PList ["gpt-4o"; "gpt-4o-mini"; "gpt-4"; "gpt-3.5-turbo"]);
    arg "AntropicILLM" TList
      (PList ["claude-2"; "claude-instant-100k"; "claude-1"; "claude-1.3"]);
    arg "GoogleLLM" TList
      (PList ["claude-2"; "claude-instant-100k"; "claude-1"; "claude-1.3"]);
    arg "EmbeddingModel" TStr (PStr "OpenAI");
    arg "ChunkSize" TInt (PInt 200);
    arg "ChunkOverlap" TInt (PInt 40);
    arg "AllowedNodes" TStr (PStr "Patient,Disease,Medication,Test,Symptom,Doctor");
    arg "AllowedRelationships" TStr (PList []);
    arg "NodeProperties" TBool (PBool false);
    arg "RelationshipProperties" TBool (PBool false);
    arg "ClearGraph" TBool (PBool true);
    arg "NodeLabel" TStr (PStr "Patient");
    arg "TextNodeProperties" TStr (PStr "id,text");
    arg "EmbeddingNodeProperty" TStr (PStr "embedding");
    arg "VectorIndexName" TStr (PStr "vector_index");
    arg "KeywordIndexName" TStr (PStr "entity_index");
    {| dest := "SearchType"; arg_type := TStr; default := PStr "hybrid";
       choices := Some ["vector"; "keyword"; "hybrid"] |} ].

Definition digit_of (c : ascii) : option Z :=
  let n := nat_of_ascii c in
  if Nat.leb 48 n && Nat.leb n 57 then Some (Z.of_nat (n - 48)) else None.

(** The white space [int] skips in an ASCII text: the space and the
    characters 9 to 13. *)
Definition int_space (c : ascii) : bool :=
  let n := nat_of_ascii c in
  Nat.eqb n 32 || (Nat.leb 9 n && Nat.leb n 13).

Fixpoint skip_space (s : string) : string :=
  match s with
  | String c r => if int_space c then skip_space r else s
  | EmptyString => EmptyString
  end.

(** What the scan of a numeral has just read. *)
Inductive Prev := Start | Digit | Underscore.

(** The digits of a numeral, from the left, with the value and the
    number of digits read so far: a numeral starts and ends with a digit,
    one [_] may stand between two digits, and after the last digit only
    white space may follow. *)
Fixpoint digits (s : string) (prev : Prev) (acc count : Z) : option (Z * Z) :=
  match s with
  | EmptyString =>
      match prev with
      | Digit => Some (acc, count)
      | _ => None
      end
  | String c r =>
      match digit_of c with
      | Some d => digits r Digit (10 * acc + d) (count + 1)
      | None =>
          match prev with
          | Digit =>
              if Ascii.eqb c "_" then digits r Underscore acc count
              else if String.eqb (skip_space s) "" then Some (acc, count)
              else None
          | _ => None
          end
      end
  end.

(** [sys.get_int_max_str_digits()], as the interpreter starts. *)
Definition max_str_digits : Z := 4300.

(** [int(s)] on an ASCII text: white space, an optional sign, the
    digits, white space; [None] where [int] raises [ValueError], which
    it also does for more than [max_str_digits] digits. *)
Definition parse_int (s : string) : option Z :=
  let '(sign, body) :=
    match skip_space s with
    | String "-" r => ((-1)%Z, r)
    | String "+" r => (1%Z, r)
    | r => (1%Z, r)
    end in
  match digits body Start 0 0 with
  | Some (z, count) => if (max_str_digits <? count)%Z then None else Some (sign * z)%Z
  | None => None
  end.

(** The [type=] callable applied to a command-line string. *)
Definition convert (t : ArgType) (raw : string) : option pyval :=
  match t with
  | TStr => Some (PStr raw)
  | TInt => PInt <$> parse_int raw
  | TBool => Some (PBool (negb (String.eqb raw "")))
  | TList => Some (PList (map (fun c => String c EmptyString) (list_ascii_of_string raw)))
  end.

(** The argument declared under a name. *)
Definition declared (name : string) : option Argument :=
  find (fun a => String.eqb (dest a) name) arguments.

(** What an option string stands for: one of the declared arguments, or
    the [--help] that [ArgumentParser()] adds. *)
Inductive Action :=
| Store (a : Argument)
| Help.

(** The long option strings of the parser, without their [--]. *)
Definition option_strings : list (string * Action) :=
  ("help", Help) :: map (fun a => (dest a, Store a)) arguments.

(** The option a name on the command line stands for: the option of that
    name, else the only option the name is a prefix of; none when the
    name is a prefix of no option or of several. *)
Definition find_action (name : string) : option Action :=
  match find (fun o => String.eqb (fst o) name) option_strings with
  | Some o => Some (snd o)
  | None =>
      match List.filter (fun o => String.prefix name (fst o)) option_strings with
      | [o] => Some (snd o)
      | _ => None
      end
  end.

(** The argument that takes the value of [--name=value]; [--help] takes
    none. *)
Definition find_argument (name : string) : option Argument :=
  match find_action name with
  | Some (Store a) => Some a
  | _ => None
  end.

(** The two sides of the first [=] of the argument [--name=value]: the
    name ends at the first [=], also when that one is written inside
    [name]. *)
Fixpoint split_option (name value : string) : string * string :=
  match name with
  | EmptyString => (EmptyString, value)
  | String c r =>
      if Ascii.eqb c "=" then (EmptyString, r +:+ "=" +:+ value)
      else let '(n, v) := split_option r value in (String c n, v)
  end.

(** The namespace before the command line is read: every declared
    destination with its default. *)
Definition defaults : Namespace :=
  list_to_map (map (fun a => (dest a, default a)) arguments).

(** [parser.parse_args()] on a command line made of arguments
    [--name=value], given as the pairs of their names and values, in
    order.  (The two arguments [--name value] are read like
    [--name=value] when [name] stands for a declared argument and
    [value] does not begin with [-].)  A name that stands for no
    declared argument, a value its type rejects and a value outside the
    choices end the program with status 2. *)
Fixpoint parse_args (argv : list (string * string)) (ns : Namespace)
    : result Namespace :=
  match argv with
  | [] => Ok ns
  | (flag, raw) :: rest =>
      match find_argument (fst (split_option flag raw)) with
      | None => Raise (SystemExit 2)
      | Some a =>
          match convert (arg_type a) (snd (split_option flag raw)) with
          | None => Raise (SystemExit 2)
          | Some v =>
              match choices a with
              | Some cs =>
                  if str_in (snd (split_option flag raw)) cs
                  then parse_args rest (<[dest a := v]> ns)
                  else Raise (SystemExit 2)
              | None => parse_args rest (<[dest a := v]> ns)
              end
          end
      end
  end.

(** [TrainOptions().parse()]. *)
Definition parse (argv : list (string * string)) : result Namespace :=
  parse_args argv defaults.

End TrainOptions.

(** ** components/embeddings.py *)

Module GetEmbeddings.

Section Methods.
Context (w : World) (_opt : Namespace).

Definition is_str (v : pyval) (s : string) : bool := bool_decide (v = PStr s).

Definition get_embedding_models (embedding_name : pyval) : result pyval :=
  let embedding_name :=
    if truthy embedding_name then embedding_name
    else getattr_default _opt "EmbeddingModel" PNone in
  if negb (truthy embedding_name) then
    Raise (ValueError
      "No embedding provider specified (embedding_name or opt.EmbeddingModel).")
  else
    try_except
      (if is_str embedding_name "openai" then new_embeddings w "OpenAIEmbeddings"
       else if is_str embedding_name "cohere" then new_embeddings w "CohereEmbeddings"
       else if is_str embedding_name "google_palm" then
         new_embeddings w "GooglePalmEmbeddings"
       else if is_str embedding_name "vertexai" then
         new_embeddings w "VertexAIEmbeddings"
       else if is_str embedding_name "bedrock" then
         new_embeddings w "BedrockEmbeddings"
       else
         v <- getattr _opt "EmbeddingModel";
         Raise (ValueError ("Unknown embedding provider: " +:+ py_str v)))
      (fun e => RuntimeError ("Failed to initialize embeddings for "
                              +:+ py_str embedding_name +:+ ": " +:+ exn_str e)).

End Methods.

(** The provider names the dispatch recognises. *)
Definition recognized : list string :=
  ["openai"; "cohere"; "google_palm"; "vertexai"; "bedrock"].

End GetEmbeddings.

(** ** components/llms.py *)

Module GetLLM.

(** [v.lower()]: only strings have the method. *)
Definition py_lower (v : pyval) : result pyval :=
  match v with
  | PStr s => Ok (PStr (lower s))
  | _ => Raise (AttributeError (type_name v) "lower")
  end.

(** [v in [s1, ..., sn]] for a list of strings. *)
Definition py_in (v : pyval) (l : list string) : bool :=
  match v with
  | PStr s => str_in s l
  | _ => false
  end.

(** [v[("gemini-pro", "gemini-1.5", "gemini-1.0")]]: subscription by a
    tuple, which no value of these types supports. *)
Definition getitem_tuple (v : pyval) : result pyval :=
  match v with
  | PStr _ => Raise (TypeError "string indices must be integers, not 'tuple'")
  | PList _ =>
      Raise (TypeError "list indices must be integers or slices, not tuple")
  | _ => Raise (TypeError ("'" +:+ type_name v +:+ "' object is not subscriptable"))
  end.

Definition openai_models : list string :=
  ["gpt-4o"; "gpt-4o-mini"; "gpt-4"; "gpt-3.5-turbo"].

Definition antropic_models : list string :=
  ["claude-2"; "claude-instant-100k"; "claude-1"; "claude-1.3"].

Definition google_models : list string :=
  ["gemini-pro"; "gemini-1.5"; "gemini-1.0"].

Section Methods.
Context (w : World) (_opt : Namespace).

(** The [try] body shared by the three providers: read the sampling
    options, then construct the chat model. *)
Definition construct (cls : string) (llm_name : pyval) : result pyval :=
  temperature <- getattr _opt "temperature";
  max_tokens <- getattr _opt "max_tokens";
  timeout <- getattr _opt "timeout";
  new_chat_model w
    {| chat_class := cls; chat_model := llm_name;
       chat_temperature := temperature; chat_max_tokens := max_tokens;
       chat_request_timeout := timeout |}.

Definition unknown (llm_name model_name : pyval) : result pyval :=
  Raise (ValueError ("Unknown LLM provider: " +:+ py_str llm_name
                     +:+ " and model name: " +:+ py_str model_name)).

Definition get_chat_model (provider_name model_name : pyval) : result pyval :=
  llm_name <- (if truthy provider_name then Ok provider_name
               else v <- getattr _opt "LLMProvider"; py_lower v);
  model_name <- (if truthy model_name then Ok model_name
                 else getattr _opt "LLMModel");
  if negb (truthy llm_name) || negb (truthy model_name) then
    Raise (ValueError "No LLM provider or modelname specified. Given llm name is {lm_name} and model_name is {model_name}).")
  else if bool_decide (llm_name = PStr "openai") && py_in model_name openai_models then
    try_except (construct "ChatOpenAI" llm_name)
      (fun e => RuntimeError ("Failed to initialize OpenAI LLM: " +:+ exn_str e))
  else if bool_decide (llm_name = PStr "antropic")
          && py_in model_name antropic_models then
    try_except (construct "ChatAnthropic" llm_name)
      (fun e => RuntimeError ("Failed to initialize Anthropic LLM: " +:+ exn_str e))
  else if bool_decide (llm_name = PStr "google") then
    item <- getitem_tuple model_name;
    if truthy item then
      try_except (construct "ChatGoogleGemini" llm_name)
        (fun e => RuntimeError ("Failed to initialize Google Gemini LLM: "
                                +:+ exn_str e))
    else unknown llm_name model_name
  else unknown llm_name model_name.

End Methods.

(** The provider names the documentation lists, each with the model
    names its branch of [get_chat_model] spells out. *)
Definition documented : list (string * list string) :=
  [ ("openai", openai_models);
    ("anthropic", antropic_models);
    ("google", google_models) ].

End GetLLM.

(** ** A state-and-exception monad for the code that talks to the database *)

Definition M (S A : Type) : Type := S -> result A * S.

Definition mret {S A} (a : A) : M S A := fun s => (Ok a, s).
Definition mraise {S A} (e : exn) : M S A := fun s => (Raise e, s).
Definition mlift {S A} (r : result A) : M S A := fun s => (r, s).
Definition mbind {S A B} (m : M S A) (k : A -> M S B) : M S B :=
  fun s => match m s with
           | (Ok a, s') => k a s'
           | (Raise e, s') => (Raise e, s')
           end.

(** [try: m except Exception as e: raise handler(e)]; what [m] changed
    before raising stays changed. *)
Definition mtry {S A} (m : M S A) (handler : exn -> exn) : M S A :=
  fun s => let '(r, s') := m s in (try_except r handler, s').

Declare Scope m_scope.
Delimit Scope m_scope with m.
Notation "x <~ m ; k" := (mbind m (fun x => k))
  (at level 100, m at next level, right associativity) : m_scope.

(** ** components/graph_db.py *)

Module GraphDb.

(** A [Neo4jStore] instance.  [__init__] sets [_opt] and [graph];
    [vector] exists only once [create_hybrid_indexes] has assigned it. *)
Record Neo4jStore := {
  _opt : Namespace;
  graph : option Neo4jGraph;      (* None: the Python None *)
  vector : option Neo4jVector;    (* None: the attribute is not set *)
}.

Definition __init__ (opt : Namespace) : Neo4jStore :=
  {| _opt := opt; graph := None; vector := None |}.

Section Methods.
Context (w : World).

(** The state the methods run in: the instance and the database. *)
Definition St : Type := Neo4jStore * DB w.

Definition get_self : M St Neo4jStore := fun s => (Ok (fst s), s).
Definition set_graph (g : Neo4jGraph) : M St unit :=
  fun s => (Ok tt, ({| _opt := _opt (fst s); graph := Some g;
                       vector := vector (fst s) |}, snd s)).
Definition set_vector (v : Neo4jVector) : M St unit :=
  fun s => (Ok tt, ({| _opt := _opt (fst s); graph := graph (fst s);
                       vector := Some v |}, snd s)).
(** A call that reaches the server. *)
Definition server {A} (f : DB w -> result A * DB w) : M St A :=
  fun s => let '(r, db) := f (snd s) in (r, (fst s, db)).

Local Open Scope m_scope.

(** The four connection options, read in the order of the keyword
    arguments. *)
Definition connection_args (opt : Namespace) : result Neo4jGraph :=
  (uri <- getattr opt "uri";
   u <- getattr opt "username";
   p <- getattr opt "password";
   d <- getattr opt "database";
   Ok {| url := uri; username := u; password := p; database := d |})%py.

Definition _connection : M St Neo4jGraph :=
  mtry
    (self <~ get_self;
     g <~ mlift (connection_args (_opt self));
     _ <~ server (fun db => (neo4j_connect w g db, db));
     _ <~ set_graph g;
     mret g)
    (fun e => RuntimeError ("Failed to connect to Neo4j: " +:+ exn_str e)).

Definition clear : M St unit :=
  mtry
    (self <~ get_self;
     match graph self with
     | None => mraise (RuntimeError "Graph not connected")
     | Some g => server (neo4j_query w g "MATCH (n) DETACH DELETE n;")
     end)
    (fun e => RuntimeError ("Failed to clear Neo4j database: " +:+ exn_str e)).

Definition add_graph_documents (graph_documents : list GraphDocument)
    (include_source : bool) : M St unit :=
  mtry
    (self <~ get_self;
     match graph self with
     | None => mraise (RuntimeError "Graph not connected")
     | Some g => server (neo4j_add_graph_documents w g graph_documents include_source)
     end)
    (fun e => RuntimeError ("Failed to add documents to Neo4j: " +:+ exn_str e)).

Definition vector_args (opt : Namespace) : result Neo4jVector :=
  (e <- getattr opt "embeddings";
   g <- connection_args opt;
   nl <- getattr opt "node_label";
   tp <- getattr opt "text_node_properties";
   ep <- getattr opt "embedding_node_property";
   ix <- getattr opt "index_name";
   kx <- getattr opt "keyword_index_name";
   st <- getattr opt "search_type";
   Ok {| vec_embedding := e; vec_graph := g; vec_node_label := nl;
         vec_text_node_properties := tp; vec_embedding_node_property := ep;
         vec_index_name := ix; vec_keyword_index_name := kx;
         vec_search_type := st |})%py.

Definition create_hybrid_indexes : M St Neo4jVector :=
  self <~ get_self;
  match graph self with
  | None => mraise (RuntimeError "Graph not connected.")
  | Some _ =>
      mtry
        (v <~ mlift (vector_args (_opt self));
         _ <~ server (neo4j_from_existing_graph w v);
         _ <~ set_vector v;
         mret v)
        (fun e => RuntimeError ("Failed to create hybrid indexes: " +:+ exn_str e))
  end.

(** [similarity_search] ([hybrid = false]) and [hybrid_search]
    ([hybrid = true]), which differ in the library method they call and
    in their message only.  Reading [self.vector] raises while the
    attribute is not set. *)
Definition search (hybrid : bool) (query : string) (k : pyval)
    (with_score : bool) : M St (Hits w) :=
  self <~ get_self;
  match vector self with
  | None => mraise (AttributeError "Neo4jStore" "vector")
  | Some v =>
      mtry (server (vector_search w v hybrid with_score query k))
        (fun e => RuntimeError
           ((if hybrid then "Hybrid search failed: "
             else "Similarity search failed: ") +:+ exn_str e))
  end.

Definition similarity_search := search false.
Definition hybrid_search := search true.

(** The methods of the class that take no argument and return the
    graph: [_connection] is the only one.  ([connect] is called by
    [train.run] and defined nowhere.) *)
Definition graph_methods (m : string) : option (M St Neo4jGraph) :=
  if String.eqb m "_connection" then Some _connection else None.

(** [store.m()] for such a method. *)
Definition call_graph_method (m : string) : M St Neo4jGraph :=
  f <~ mlift (lookup_method "Neo4jStore" m graph_methods);
  f.

(** The methods of the class that take no argument and return a text:
    there is none.  (The class has no [getSchema]; the schema is read
    from the connection itself, by [cypher_qa].) *)
Definition schema_methods (m : string) : option (M St string) :=
  None.

Definition call_schema_method (m : string) : M St string :=
  f <~ mlift (lookup_method "Neo4jStore" m schema_methods);
  f.

End Methods.

End GraphDb.

(** ** components/knowledge_graph.py *)

Module KnowledgeGraph.

Section Functions.
Context (w : World).
Local Open Scope m_scope.

(** The keyword arguments of [LLMGraphTransformer(...)], read from the
    options with [getattr(opt, name, default)]. *)
Definition transformer_args (opt : Namespace) : TransformerArgs :=
  {| allowed_nodes := getattr_default opt "allowed_nodes" PNone;
     allowed_relationships := getattr_default opt "allowed_relationships" PNone;
     node_properties := getattr_default opt "node_properties" (PBool false);
     relationship_properties :=
       getattr_default opt "relationship_properties" (PBool false) |}.

(** [graph] is [None] for the Python [None]. *)
Definition create_knowledge_graph (docs : list Document) (opt : Namespace)
    (graph : option Neo4jGraph) (llm : pyval) (include_source : bool)
    : M (DB w) nat :=
  match graph with
  | None => mraise (RuntimeError "Graph not connected")
  | Some g =>
      graph_documents <~
        mlift (convert_to_graph_documents w llm (transformer_args opt) docs);
      _ <~ neo4j_add_graph_documents w g graph_documents include_source;
      mret (length graph_documents)
  end.

Definition template : string :=
"Task: Generate a Cypher statement to query the graph database.

Instructions:
- Use only relationship types and properties provided in the schema.
- Do not invent labels/relations/properties.

schema:
{schema}

# Output Rules:
- Output ONLY the Cypher query (no explanations).
- If the question cannot be answered with the schema, output a valid Cypher that returns an empty result with a clear RETURN.

Question: {question}".

Definition cypher_qa (question : string) (opt : Namespace)
    (graph : option Neo4jGraph) (llm : pyval) (verbose : bool)
    : M (DB w) string :=
  match graph with
  | None => mraise (RuntimeError "Graph not connected")
  | Some g =>
      schema <~ (fun db => (neo4j_get_schema w g db, db));
      res <~ cypher_chain_invoke w llm g template schema question verbose;
      mret (default "" res)       (* res.get("result", "") *)
  end.

End Functions.

End KnowledgeGraph.

(** ** train.py *)

Module Train.

(** The numbered steps of [run]. *)
Inductive Step :=
| ParseOptions          (* 1 *)
| Preprocess            (* 2 *)
| ConnectGraph          (* 3 *)
| InitLLM               (* 4 *)
| Ingest                (* 5 *)
| BuildIndexes          (* 6 *)
| QuestionAnswering.    (* 7 *)

#[global] Instance Step_eq_dec : EqDecision Step.
Proof. solve_decision. Defined.

(** How a run ends: normally, with what it printed, or with the
    exception that left [run] and the step that raised it. *)
Inductive Outcome :=
| Finished (printed : option string)
| Failed (at_step : Step) (e : exn).

Section Run.
Context (w : World).

(** Steps 6 and 7, once the graph documents are ingested.  The store
    holds the very object [opt], so it sees [opt.embeddings]. *)
Definition run_from_6 (opt : Namespace) (store : GraphDb.Neo4jStore)
    (graph : Neo4jGraph) (llms : pyval) (question : string) (db : DB w)
    : Outcome * DB w :=
  match GetEmbeddings.get_embedding_models w opt PNone with
  | Raise e => (Failed BuildIndexes e, db)
  | Ok emb =>
      let opt := <["embeddings" := emb]> opt in
      let store := {| GraphDb._opt := opt; GraphDb.graph := GraphDb.graph store;
                      GraphDb.vector := GraphDb.vector store |} in
      match GraphDb.create_hybrid_indexes w (store, db) with
      | (Raise e, (_, db)) => (Failed BuildIndexes e, db)
      | (Ok _, (_, db)) =>
          match getattr opt "test_knowledge_graph" with
          | Raise e => (Failed QuestionAnswering e, db)
          | Ok t =>
              if truthy t then
                match KnowledgeGraph.cypher_qa w question opt (Some graph) llms true db with
                | (Raise e, db) => (Failed QuestionAnswering e, db)
                | (Ok kg_answer, db) => (Finished (Some kg_answer), db)
                end
              else (Finished None, db)
          end
      end
  end.

(** [run()], given the command line, the line [input] would read and
    the database. *)
Definition run (argv : list (string * string)) (question : string) (db : DB w)
    : Outcome * DB w :=
  match TrainOptions.parse argv with
  | Raise e => (Failed ParseOptions e, db)
  | Ok opt =>
  match DocumentProcessor.process_documents w opt with
  | Raise e => (Failed Preprocess e, db)
  | Ok docs =>
  let store := GraphDb.__init__ opt in
  match GraphDb.call_graph_method w "connect" (store, db) with
  | (Raise e, (_, db)) => (Failed ConnectGraph e, db)
  | (Ok graph, (store, db)) =>
  match GetLLM.get_chat_model w opt PNone PNone with
  | Raise e => (Failed InitLLM e, db)
  | Ok llms =>
  match KnowledgeGraph.create_knowledge_graph w docs opt (Some graph) llms true db with
  | (Raise e, db) => (Failed Ingest e, db)
  | (Ok _, db) => run_from_6 opt store graph llms question db
  end end end end end.

End Run.

(** The steps that come after the graph connection. *)
Definition after_connection (s : Step) : bool :=
  match s with
  | ParseOptions | Preprocess | ConnectGraph => false
  | _ => true
  end.

End Train.

(** ** Concrete worlds

    Stand-ins for the libraries, on which the pipeline can be evaluated.
    The database is the list of ingested batches. *)

Module Scenario.

Definition file (dir base ext : string) : Path :=
  {| path_str := dir +:+ "/" +:+ base +:+ ext;
     name := base +:+ ext;
     suffix := ext |}.

(** A page of a PDF. *)
Definition page : Document :=
  {| page_content := "The patient John was treated by Dr. Smith.";
     metadata := {[ "page" := PInt 0 ]} |}.

(** The splitter's constructor rejects an overlap larger than the chunk
    size, with the message of [TextSplitter.__init__]; a document that
    fits the chunk size is its own single chunk.  The stand-in is for
    integer parameters: it raises [TypeError] for others. *)
Definition splitter (chunk_size chunk_overlap : pyval) (docs : list Document)
    : result (list Document) :=
  match chunk_size, chunk_overlap with
  | PInt cs, PInt co =>
      if (cs <? co)%Z then
        Raise (ValueError ("Got a larger chunk overlap (" +:+ pretty co
                           +:+ ") than chunk size (" +:+ pretty cs
                           +:+ "), should be smaller."))
      else Ok docs
  | _, _ =>
      Raise (TypeError ("'>' not supported between instances of '"
                        +:+ type_name chunk_overlap +:+ "' and '"
                        +:+ type_name chunk_size +:+ "'"))
  end.

Definition patient : Node := {| node_id := "John"; node_type := "Patient" |}.
Definition doctor : Node := {| node_id := "Dr. Smith"; node_type := "Doctor" |}.
Definition treated_by : Relationship :=
  {| rel_source := patient; rel_target := doctor; rel_type := "TREATED_BY" |}.

(** What the extraction finds in a chunk before any filtering. *)
Definition candidates (d : Document) : GraphDocument :=
  {| nodes := [patient; doctor]; relationships := [treated_by]; source := d |}.

(** The transformer's filter: with a non-empty [allowed_nodes] list it
    keeps the nodes with an allowed label and the relationships between
    them; with [None] or an empty list it keeps everything. *)
Definition restrict (args : TransformerArgs) (gd : GraphDocument) : GraphDocument :=
  match allowed_nodes args with
  | PList ((_ :: _) as labels) =>
      {| nodes := List.filter (fun n => str_in (node_type n) labels) (nodes gd);
         relationships :=
           List.filter (fun r => str_in (node_type (rel_source r)) labels
                                 && str_in (node_type (rel_target r)) labels)
                       (relationships gd);
         source := source gd |}
  | _ => gd
  end.

Definition transformer (llm : pyval) (args : TransformerArgs) (docs : list Document)
    : result (list GraphDocument) :=
  Ok (map (fun d => restrict args (candidates d)) docs).

(** The components of a path: the texts between its slashes. *)
Fixpoint components (s cur : string) : list string :=
  match s with
  | EmptyString => [cur]
  | String c r =>
      if Ascii.eqb c "/" then cur :: components r EmptyString
      else components r (cur +:+ String c EmptyString)
  end.

(** [str(Path(s))] on a POSIX system: empty and [.] components go, a
    leading slash stays (two of them when there are exactly two), and
    the empty path is written [.]. *)
Definition posix (s : string) : string :=
  let root :=
    match s with
    | String "/" (String "/" (String "/" _)) => "/"
    | String "/" (String "/" _) => "//"
    | String "/" _ => "/"
    | _ => ""
    end in
  let parts :=
    List.filter (fun p => negb (String.eqb p "" || String.eqb p "."))
                (components s EmptyString) in
  if String.eqb root "" && match parts with [] => true | _ => false end then "."
  else root +:+ join "/" parts.

(** The world whose directory [/data] holds [files], in scan order, every
    PDF among them having the pages [pages]. *)
Definition world (files : list Path) (pages : list Document) : World :=
  {| DB := list (list GraphDocument * bool);
     str_Path := posix;
     dir_exists := fun d => String.eqb (posix d) "/data";
     rglob := fun _ => files;
     load_and_split := fun _ => Ok pages;
     split_documents := splitter;
     new_embeddings := fun cls => Ok (PStr cls);
     new_chat_model := fun a => Ok (PStr (chat_class a));
     convert_to_graph_documents := transformer;
     neo4j_connect := fun _ _ => Ok tt;
     neo4j_query := fun _ _ _ => (Ok tt, []);
     neo4j_add_graph_documents := fun _ gds src db => (Ok tt, (db ++ [(gds, src)])%list);
     neo4j_get_schema := fun _ _ => Ok "";
     neo4j_from_existing_graph := fun _ db => (Ok tt, db);
     Hits := list Document;
     vector_search := fun _ _ _ _ _ db => (Ok [], db);
     cypher_chain_invoke := fun _ _ _ _ _ _ db => (Ok None, db) |}.

(** Options for [DocumentProcessor]: the four attributes it reads. *)
Definition processor_opt (extensions : list string) (chunk_size chunk_overlap : Z)
    : Namespace :=
  <["input_dir" := PStr "/data"]>
    (<["extensions" := PList extensions]>
       (<["chunk_size" := PInt chunk_size]>
          {[ "chunk_overlap" := PInt chunk_overlap ]})).

(** [page] as [_load_pdf] returns it for the file [name] of [/data]. *)
Definition loaded_page (name : string) : Document :=
  {| page_content := page_content page;
     metadata := <["file_name" := PStr name]>
                   (<["source" := PStr ("/data/" +:+ name)]> (metadata page)) |}.

(** A text of [n] characters [a]. *)
Fixpoint text_of_length (n : nat) : string :=
  match n with
  | O => EmptyString
  | S k => String "a" (text_of_length k)
  end.

(** A page of 1,000 characters. *)
Definition long_page : Document :=
  {| page_content := text_of_length 1000; metadata := {[ "page" := PInt 0 ]} |}.

(** [long_page] as [_load_pdf] returns it for [/data/report.pdf]. *)
Definition loaded_long_page : Document :=
  {| page_content := text_of_length 1000;
     metadata := <["file_name" := PStr "report.pdf"]>
                   (<["source" := PStr "/data/report.pdf"]> (metadata long_page)) |}.

Definition neo4j : Neo4jGraph :=
  {| url := PStr "neo4j+s://your-neo4j-instance"; username := PStr "your-username";
     password := PStr "your-password"; database := PStr "your-database" |}.

(** The options [TrainOptions] yields for
    [--AllowedNodes Patient,Disease]. *)
Definition restricted_opt : Namespace :=
  <["AllowedNodes" := PStr "Patient,Disease"]> TrainOptions.defaults.

(** A chunk as [process_documents] would return it. *)
Definition chunk : Document :=
  {| page_content := page_content page;
     metadata := <["chunk_overlap" := PInt 40]>
                   (<["chunk_size" := PInt 200]>
                      (<["chunk_index" := PInt 0]> (metadata page))) |}.

End Scenario.

(** ** train.py run as a script *)

Module Script.

(** How the script ends: with an exception raised at module level, or
    with the outcome of [run]. *)
Inductive ScriptOutcome :=
| Raised (e : exn)
| Ran (o : Train.Outcome).

(** The parameters [def run():] declares. *)
Definition run_parameters : list string := [].

(** A call [f(k1=..., k2=...)] of a function with parameters [params]:
    a keyword that names none of them is a [TypeError], raised before the
    body runs. *)
Definition call_with_keywords {R} (f : string) (params keywords : list string)
    (raise : exn -> R) (body : R) : R :=
  match find (fun k => negb (str_in k params)) keywords with
  | Some k =>
      raise (TypeError (f +:+ "() got an unexpected keyword argument '" +:+ k +:+ "'"))
  | None => body
  end.

(** The block under [if __name__ == "__main__":]. *)
Definition main (w : World) (argv : list (string * string)) (question : string)
    (db : DB w) : ScriptOutcome * DB w :=
  match TrainOptions.parse argv with
  | Raise e => (Raised e, db)
  | Ok opt =>
      call_with_keywords "run" run_parameters ["opt"]
        (fun e => (Raised e, db))
        (let '(o, db') := Train.run w argv question db in (Ran o, db'))
  end.

End Script.

(** ** Vocabulary of the further properties *)

(** A path whose extension is among the allowed ones. *)
Definition allowed (exts : list string) (p : Path) : bool :=
  str_in (lower (suffix p)) exts.

(** The documents [_load_pdf] returns for a path, none if it raises. *)
Definition pdf_pages (w : World) (p : Path) : list Document :=
  match DocumentProcessor._load_pdf w p with
  | Ok docs => docs
  | Raise _ => []
  end.

(** The three keys step 4 of [process_documents] writes. *)
Definition chunk_keys : list string := ["chunk_index"; "chunk_size"; "chunk_overlap"].

(** [w] with another text splitter. *)
Definition with_splitter (w : World)
    (split : pyval -> pyval -> list Document -> result (list Document)) : World :=
  {| DB := DB w;
     str_Path := str_Path w;
     dir_exists := dir_exists w;
     rglob := rglob w;
     load_and_split := load_and_split w;
     split_documents := split;
     new_embeddings := new_embeddings w;
     new_chat_model := new_chat_model w;
     convert_to_graph_documents := convert_to_graph_documents w;
     neo4j_connect := neo4j_connect w;
     neo4j_query := neo4j_query w;
     neo4j_add_graph_documents := neo4j_add_graph_documents w;
     neo4j_get_schema := neo4j_get_schema w;
     neo4j_from_existing_graph := neo4j_from_existing_graph w;
     Hits := Hits w;
     vector_search := vector_search w;
     cypher_chain_invoke := cypher_chain_invoke w |}.

(** The attribute names [TrainOptions] declares. *)
Definition dests : list string := map TrainOptions.dest TrainOptions.arguments.

(** The class [get_embedding_models] instantiates for each provider name. *)
Definition embedding_classes : list (string * string) :=
  [ ("openai", "OpenAIEmbeddings");
    ("cohere", "CohereEmbeddings");
    ("google_palm", "GooglePalmEmbeddings");
    ("vertexai", "VertexAIEmbeddings");
    ("bedrock", "BedrockEmbeddings") ].

(** The exception a result carries, if any. *)
Definition error_of {A} (r : result A) : option exn :=
  match r with
  | Ok _ => None
  | Raise e => Some e
  end.

(** The arguments the transformer gets when the options hold none of
    the four attributes [create_knowledge_graph] reads. *)
Definition unrestricted : TransformerArgs :=
  {| allowed_nodes := PNone; allowed_relationships := PNone;
     node_properties := PBool false; relationship_properties := PBool false |}.

(** A splitter that rejects every document it is handed. *)
Definition refusing_splitter (cs co : pyval) (docs : list Document)
    : result (list Document) :=
  match docs with
  | [] => Scenario.splitter cs co docs
  | _ :: _ => Raise (LibraryError "no document expected")
  end.

(** Options with the four connection attributes [Neo4jStore] reads. *)
Definition connection_opt : Namespace :=
  <["uri" := url Scenario.neo4j]>
    (<["username" := username Scenario.neo4j]>
       (<["password" := password Scenario.neo4j]>
          {[ "database" := database Scenario.neo4j ]})).

(** Options with all the attributes [create_hybrid_indexes] reads. *)
Definition index_opt : Namespace :=
  <["embeddings" := PStr "OpenAIEmbeddings"]>
    (<["node_label" := PStr "Patient"]>
       (<["text_node_properties" := PStr "id,text"]>
          (<["embedding_node_property" := PStr "embedding"]>
             (<["index_name" := PStr "vector_index"]>
                (<["keyword_index_name" := PStr "entity_index"]>
                   (<["search_type" := PStr "hybrid"]> connection_opt)))))).

(** The vector store [create_hybrid_indexes] builds from [index_opt]. *)
Definition index_vector : Neo4jVector :=
  {| vec_embedding := PStr "OpenAIEmbeddings";
     vec_graph := Scenario.neo4j;
     vec_node_label := PStr "Patient";
     vec_text_node_properties := PStr "id,text";
     vec_embedding_node_property := PStr "embedding";
     vec_index_name := PStr "vector_index";
     vec_keyword_index_name := PStr "entity_index";
     vec_search_type := PStr "hybrid" |}.

(** * Properties *)

(** ** Basic facts about [result] and method lookup *)

Lemma bind_Ok {A B} (r : result A) (k : A -> result B) (b : B) :
  bind r k = Ok b -> exists a, r = Ok a /\ k a = Ok b.
Proof. destruct r as [a|e]; simpl; [eauto | discriminate]. Qed.

Lemma try_except_Exception {A} (e : exn) (h : exn -> exn) :
  is_Exception e = true -> @try_except A (Raise e) h = Raise (h e).
Proof. intros He. simpl. now rewrite He. Qed.

Lemma getattr_Some (ns : Namespace) (k : string) (v : pyval) :
  ns !! k = Some v -> getattr ns k = Ok v.
Proof. intros H. unfold getattr. now rewrite H. Qed.

Lemma getattr_None (ns : Namespace) (k : string) :
  ns !! k = None -> getattr ns k = Raise (AttributeError "Namespace" k).
Proof. intros H. unfold getattr. now rewrite H. Qed.

Lemma str_in_In (s : string) (l : list string) : str_in s l = true <-> In s l.
Proof.
  unfold str_in. rewrite existsb_exists. split.
  - intros (x & Hx & Heq). apply String.eqb_eq in Heq. now subst.
  - intros H. exists s. split; [assumption | apply String.eqb_refl].
Qed.

(** ** DocumentProcessor: the chunk index *)

Section ChunkIndex.
Import DocumentProcessor.
Context (chunk_size chunk_overlap : pyval).

Lemma add_chunk_index_length idx docs :
  length (add_chunk_index chunk_size chunk_overlap idx docs) = length docs.
Proof. revert idx. induction docs as [|d docs IH]; intros idx; simpl; auto. Qed.

(** The post-pass leaves the texts alone. *)
Lemma add_chunk_index_content idx docs :
  map page_content (add_chunk_index chunk_size chunk_overlap idx docs)
  = map page_content docs.
Proof.
  revert idx. induction docs as [|d docs IH]; intros idx; simpl; [reflexivity|].
  now rewrite IH.
Qed.

(** Counting from [idx], the chunks carry [idx], [idx + 1], ... *)
Lemma add_chunk_index_from idx docs :
  map chunk_index (add_chunk_index chunk_size chunk_overlap idx docs)
  = map (fun i => Some (PInt (Z.of_nat i))) (seq idx (length docs)).
Proof.
  revert idx. induction docs as [|d docs IH]; intros idx; simpl; [reflexivity|].
  f_equal; [|apply IH].
  unfold chunk_index; simpl.
  rewrite lookup_insert_ne by discriminate.
  rewrite lookup_insert_ne by discriminate.
  apply lookup_insert_eq.
Qed.

(** The other two keys of step 4. *)
Lemma add_chunk_index_params idx docs doc :
  In doc (add_chunk_index chunk_size chunk_overlap idx docs) ->
  metadata doc !! "chunk_size" = Some chunk_size /\
  metadata doc !! "chunk_overlap" = Some chunk_overlap.
Proof.
  revert idx. induction docs as [|d docs IH]; intros idx; simpl; [tauto|].
  intros [<-|Hin]; [|eauto]. unfold set_chunk_metadata; simpl. split.
  - rewrite lookup_insert_ne by discriminate. apply lookup_insert_eq.
  - apply lookup_insert_eq.
Qed.

Lemma index_values_NoDup idx n :
  NoDup (map (fun i => Some (PInt (Z.of_nat i))) (seq idx n)).
Proof.
  assert (Hinj : Inj eq eq (fun i : nat => Some (PInt (Z.of_nat i)))).
  { intros i j Heq. injection Heq as Heq. now apply Nat2Z.inj. }
  apply (NoDup_fmap_2 _), NoDup_seq.
Qed.

(** The loop leaves alone the objects it holds no reference to. *)
Lemma index_loop_other idx refs (heap : gmap nat Document) r :
  ~ In r refs ->
  index_loop chunk_size chunk_overlap idx refs heap !! r = heap !! r.
Proof.
  revert idx heap. induction refs as [|r' refs IH]; intros idx heap Hr; simpl;
    [reflexivity|].
  rewrite IH by (intros Hin; apply Hr; now right).
  apply lookup_alter_ne. intros ->. apply Hr. now left.
Qed.

(** On a list of distinct references the loop on objects leaves in the
    heap exactly the values of [add_chunk_index]. *)
Lemma index_loop_values idx refs (heap : gmap nat Document) docs :
  NoDup refs ->
  map (fun r => heap !! r) refs = map Some docs ->
  map (fun r => index_loop chunk_size chunk_overlap idx refs heap !! r) refs
  = map Some (add_chunk_index chunk_size chunk_overlap idx docs).
Proof.
  revert idx heap docs. induction refs as [|r refs IH]; intros idx heap docs Hnd Hval.
  - destruct docs; [reflexivity | discriminate].
  - destruct docs as [|d docs]; [discriminate|].
    apply NoDup_cons in Hnd as [Hr Hnd]. rewrite list_elem_of_In in Hr.
    cbn [map] in Hval. injection Hval as Hd Hval.
    cbn [map index_loop add_chunk_index]. f_equal.
    + rewrite index_loop_other by assumption.
      rewrite lookup_alter_eq, Hd. reflexivity.
    + apply IH; [assumption|].
      rewrite <- Hval. apply map_ext_in. intros r' Hr'.
      apply lookup_alter_ne. intros ->. contradiction.
Qed.

End ChunkIndex.

(** Step 4 on its own.  Whatever list of chunks it is run over, the
    [chunk_index] values read, in order, 0, 1, 2, ... up to the number
    of chunks: no two chunks share one, and when the list holds the
    chunks of one document followed by those of another, the numbering
    of the second continues where the first stopped.  Hence every list
    [process_documents] returns is numbered so. *)
Theorem chunk_index_dense_over_batch :
  (forall (cs co : pyval) (chunked_docs : list Document),
     map DocumentProcessor.chunk_index
         (DocumentProcessor.add_chunk_index cs co 0 chunked_docs)
     = map (fun i => Some (PInt (Z.of_nat i))) (seq 0 (length chunked_docs))
     /\ NoDup (map DocumentProcessor.chunk_index
                   (DocumentProcessor.add_chunk_index cs co 0 chunked_docs)))
  /\ (forall (cs co : pyval) (first second : list Document),
        map DocumentProcessor.chunk_index
            (DocumentProcessor.add_chunk_index cs co 0 (first ++ second)%list)
        = (map (fun i => Some (PInt (Z.of_nat i))) (seq 0 (length first))
           ++ map (fun i => Some (PInt (Z.of_nat i)))
                  (seq (length first) (length second)))%list)
  /\ (forall (w : World) (opt : Namespace),
        match DocumentProcessor.process_documents w opt with
        | Ok chunks =>
            map DocumentProcessor.chunk_index chunks
            = map (fun i => Some (PInt (Z.of_nat i))) (seq 0 (length chunks))
        | Raise _ => True
        end).
Proof.
  split; [|split].
  - intros cs co docs. rewrite add_chunk_index_from. split; [reflexivity|].
    apply index_values_NoDup.
  - intros cs co first second.
    rewrite add_chunk_index_from, length_app, seq_app, map_app. reflexivity.
  - intros w opt.
    destruct (DocumentProcessor.process_documents w opt) as [chunks|e] eqn:E;
      [|exact I].
    unfold DocumentProcessor.process_documents in E.
    apply bind_Ok in E as (raw & _ & E).
    apply bind_Ok in E as (cleaned & _ & E).
    apply bind_Ok in E as (cs & _ & E).
    apply bind_Ok in E as (co & _ & E).
    apply bind_Ok in E as (chunked & _ & E).
    injection E as <-.
    rewrite add_chunk_index_from, add_chunk_index_length. reflexivity.
Qed.

(** ** DocumentProcessor: the two methods that do not exist *)

Section UndefinedMethods.
Import DocumentProcessor.
Context (w : World).

Lemma clean_text_raises text : self_text_call "_clean_text" text = Raise no_clean_text.
Proof. reflexivity. Qed.

Lemma load_text_raises path : self_path_call w "_load_text" path = Raise no_load_text.
Proof. reflexivity. Qed.

Lemma load_pdf_call path : self_path_call w "_load_pdf" path = _load_pdf w path.
Proof. reflexivity. Qed.

(** The cleaning loop stops at its first document. *)
Lemma clean_docs_cons d rest acc : clean_docs (d :: rest) acc = Raise no_clean_text.
Proof. reflexivity. Qed.

Lemma clean_docs_Ok raw acc out : clean_docs raw acc = Ok out -> raw = [] /\ out = acc.
Proof.
  destruct raw as [|d rest]; simpl.
  - intros [= <-]. auto.
  - discriminate.
Qed.

(** The scan stops at the first allowed text file it reaches. *)
Lemma load_paths_text exts pre p post docs :
  forallb (passes w exts) pre = true ->
  is_text exts p = true ->
  load_paths w exts (pre ++ p :: post)%list docs = Raise no_load_text.
Proof.
  intros Hpre Hp. revert docs.
  induction pre as [|q pre IH]; intros docs.
  - cbn [app load_paths]. unfold is_text in Hp.
    apply andb_prop in Hp as [Hin Htxt]. rewrite Hin, Htxt.
    destruct (String.eqb_spec (lower (suffix p)) ".pdf") as [Heq|_];
      [|reflexivity].
    rewrite Heq in Htxt. discriminate.
  - cbn [forallb] in Hpre. apply andb_prop in Hpre as [Hq Hpre].
    cbn [app load_paths]. unfold passes in Hq.
    destruct (str_in (lower (suffix q)) exts); [|now apply IH].
    apply andb_prop in Hq as [Hpdf Hload]. rewrite Hpdf.
    rewrite load_pdf_call. unfold _load_pdf.
    destruct (load_and_split w (path_str q)) as [pages|e];
      [|discriminate].
    cbn [bind]. now apply IH.
Qed.

Context (opt : Namespace).

Lemma process_documents_loaded docs :
  _load_all_documents w opt = Ok docs -> docs <> [] ->
  process_documents w opt = Raise no_clean_text.
Proof.
  intros Hload Hne. unfold process_documents. rewrite Hload. simpl.
  destruct docs as [|d rest]; [congruence | reflexivity].
Qed.

Lemma process_documents_load_error e :
  _load_all_documents w opt = Raise e -> process_documents w opt = Raise e.
Proof. intros Hload. unfold process_documents. now rewrite Hload. Qed.

Lemma process_documents_Ok chunks :
  process_documents w opt = Ok chunks -> _load_all_documents w opt = Ok [].
Proof.
  unfold process_documents. intros E.
  apply bind_Ok in E as (raw & Hraw & E).
  apply bind_Ok in E as (cleaned & Hclean & _).
  apply clean_docs_Ok in Hclean as [-> _]. exact Hraw.
Qed.


Lemma load_all_documents_text dir es pre p post :
  getattr opt "input_dir" = Ok (PStr dir) ->
  iter_strings (getattr_default opt "extensions" (PList [".pdf"])) = Ok es ->
  dir_exists w dir = true ->
  rglob w dir = (pre ++ p :: post)%list ->
  forallb (passes w (map lower es)) pre = true ->
  is_text (map lower es) p = true ->
  _load_all_documents w opt = Raise no_load_text.
Proof.
  intros Hdir Hes Hex Hls Hpre Hp. unfold _load_all_documents.
  rewrite Hdir. simpl. rewrite Hes. simpl. rewrite Hex. simpl. rewrite Hls.
  now apply load_paths_text.
Qed.

End UndefinedMethods.

(** C1 (the code at the claim's input).  For every batch that holds at
    least one document, [process_documents] raises [AttributeError] at
    the cleaning step, before the splitter is called and before step 4
    runs: no list of chunks comes back, so no chunk of the batch ever
    gets a [chunk_index].  Step 4 itself is not at fault: run over any
    list of chunks it numbers them 0, 1, 2, ... in order. *)
Theorem batch_gets_no_chunk_index (w : World) (opt : Namespace)
    (batch : list Document) :
  DocumentProcessor._load_all_documents w opt = Ok batch ->
  batch <> [] ->
  DocumentProcessor.process_documents w opt
  = Raise (AttributeError "DocumentProcessor" "_clean_text")
  /\ (forall chunks, DocumentProcessor.process_documents w opt <> Ok chunks)
  /\ (forall (cs co : pyval) (chunked_docs : list Document),
        map DocumentProcessor.chunk_index
            (DocumentProcessor.add_chunk_index cs co 0 chunked_docs)
        = map (fun i => Some (PInt (Z.of_nat i))) (seq 0 (length chunked_docs))).
Proof.
  intros Hload Hne.
  assert (Hp : DocumentProcessor.process_documents w opt
               = Raise DocumentProcessor.no_clean_text)
    by (eapply process_documents_loaded; eassumption).
  split; [exact Hp|]. split.
  - intros chunks. rewrite Hp. discriminate.
  - intros cs co chunked_docs. apply add_chunk_index_from.
Qed.

Lemma batch_gets_no_chunk_index_witness :
  let w := Scenario.world [Scenario.file "/data" "a" ".pdf";
                           Scenario.file "/data" "b" ".pdf"] [Scenario.page] in
  let opt := Scenario.processor_opt [".pdf"] 200 40 in
  DocumentProcessor._load_all_documents w opt
  = Ok [Scenario.loaded_page "a.pdf"; Scenario.loaded_page "b.pdf"]
  /\ DocumentProcessor.process_documents w opt
     = Raise (AttributeError "DocumentProcessor" "_clean_text").
Proof.
  cbv zeta. split; [vm_compute; reflexivity|].
  apply (batch_gets_no_chunk_index _ _
           [Scenario.loaded_page "a.pdf"; Scenario.loaded_page "b.pdf"]).
  - vm_compute. reflexivity.
  - discriminate.
Defined.

(** C10 (as amended).  Whenever loading returns at least one document,
    [process_documents] raises [AttributeError] for the undefined
    [_clean_text]; whenever the directory scan reaches a file with an
    allowed [.txt] or [.md] extension -- every allowed file before it
    being a PDF that loads -- loading, and with it [process_documents],
    raises [AttributeError] for the undefined [_load_text]; and
    [process_documents] returns only when nothing was loaded. *)
Theorem undefined_methods_stop_processing (w : World) (opt : Namespace) :
  (forall docs,
     DocumentProcessor._load_all_documents w opt = Ok docs -> docs <> [] ->
     DocumentProcessor.process_documents w opt
     = Raise (AttributeError "DocumentProcessor" "_clean_text"))
  /\ (forall dir es pre p post,
        getattr opt "input_dir" = Ok (PStr dir) ->
        iter_strings (getattr_default opt "extensions" (PList [".pdf"])) = Ok es ->
        dir_exists w dir = true ->
        rglob w dir = (pre ++ p :: post)%list ->
        forallb (DocumentProcessor.passes w (map lower es)) pre = true ->
        DocumentProcessor.is_text (map lower es) p = true ->
        DocumentProcessor._load_all_documents w opt
        = Raise (AttributeError "DocumentProcessor" "_load_text")
        /\ DocumentProcessor.process_documents w opt
           = Raise (AttributeError "DocumentProcessor" "_load_text"))
  /\ (forall chunks,
        DocumentProcessor.process_documents w opt = Ok chunks ->
        DocumentProcessor._load_all_documents w opt = Ok []).
Proof.
  split; [|split].
  - intros docs Hload Hne. eapply process_documents_loaded; eassumption.
  - intros dir es pre p post Hdir Hes Hex Hls Hpre Hp.
    assert (Hload : DocumentProcessor._load_all_documents w opt
                    = Raise DocumentProcessor.no_load_text)
      by (eapply load_all_documents_text; eassumption).
    split; [exact Hload | now apply process_documents_load_error].
  - intros chunks. apply process_documents_Ok.
Qed.

Lemma undefined_methods_stop_processing_witness :
  DocumentProcessor.process_documents
    (Scenario.world [Scenario.file "/data" "report" ".pdf"] [Scenario.long_page])
    (Scenario.processor_opt [".pdf"] 200 40)
  = Raise (AttributeError "DocumentProcessor" "_clean_text")
  /\ DocumentProcessor._load_all_documents
       (Scenario.world [Scenario.file "/data" "report" ".pdf";
                        Scenario.file "/data" "notes" ".md"] [Scenario.page])
       (Scenario.processor_opt [".pdf"; ".MD"] 200 40)
     = Raise (AttributeError "DocumentProcessor" "_load_text")
  /\ DocumentProcessor._load_all_documents
       (Scenario.world [Scenario.file "/data" "readme" ".rst"] [])
       (Scenario.processor_opt [".pdf"] 200 40)
     = Ok [].
Proof.
  split; [|split].
  - apply (proj1 (undefined_methods_stop_processing _ _) [Scenario.loaded_long_page]).
    + vm_compute. reflexivity.
    + discriminate.
  - apply (proj1 (proj2 (undefined_methods_stop_processing _ _))
             "/data" [".pdf"; ".MD"] [Scenario.file "/data" "report" ".pdf"]
             (Scenario.file "/data" "notes" ".md") []);
      vm_compute; reflexivity.
  - apply (proj2 (proj2 (undefined_methods_stop_processing _ _)) []).
    vm_compute. reflexivity.
Defined.

(** C10 as stated fails on its second sentence: with the extensions
    [.docx] and [.txt] allowed and a directory that holds [draft.docx]
    before [notes.txt], the directory admits an allowed [.txt] file, yet
    loading raises [ValueError] at [draft.docx] and never looks up
    [_load_text]. *)
Lemma text_file_behind_unsupported_file :
  let w := Scenario.world [Scenario.file "/data" "draft" ".docx";
                           Scenario.file "/data" "notes" ".txt"] [] in
  let opt := Scenario.processor_opt [".docx"; ".txt"] 200 40 in
  In (Scenario.file "/data" "notes" ".txt") (rglob w "/data")
  /\ DocumentProcessor.is_text [".docx"; ".txt"] (Scenario.file "/data" "notes" ".txt")
     = true
  /\ DocumentProcessor._load_all_documents w opt
     = Raise (ValueError "Unsupported file extension: .docx")
  /\ DocumentProcessor.process_documents w opt
     = Raise (ValueError "Unsupported file extension: .docx")
  /\ DocumentProcessor._load_all_documents w opt
     <> Raise (AttributeError "DocumentProcessor" "_load_text").
Proof.
  cbv zeta. repeat split; try (vm_compute; reflexivity).
  - right. left. reflexivity.
  - vm_compute. discriminate.
Qed.

(** C2 (the code at the claim's input).  A directory whose only file is
    a [.txt] document, processed with [chunk_size] 200 and [chunk_overlap]
    40: whatever the splitter would do, [process_documents] returns no
    chunks; it raises [AttributeError] when the scan calls the undefined
    [_load_text]. *)
Theorem text_file_is_never_chunked (w : World) (opt : Namespace)
    (dir : string) (p : Path) :
  opt !! "input_dir" = Some (PStr dir) ->
  opt !! "extensions" = Some (PList [".txt"]) ->
  opt !! "chunk_size" = Some (PInt 200) ->
  opt !! "chunk_overlap" = Some (PInt 40) ->
  dir_exists w dir = true ->
  rglob w dir = [p] ->
  suffix p = ".txt" ->
  DocumentProcessor.process_documents w opt
  = Raise (AttributeError "DocumentProcessor" "_load_text").
Proof.
  intros Hdir Hext _ _ Hex Hls Hsuf.
  apply process_documents_load_error.
  apply (load_all_documents_text w opt dir [".txt"] [] p []).
  - now apply getattr_Some.
  - unfold getattr_default. now rewrite Hext.
  - exact Hex.
  - exact Hls.
  - reflexivity.
  - unfold DocumentProcessor.is_text. rewrite Hsuf. reflexivity.
Qed.

Lemma text_file_is_never_chunked_witness :
  DocumentProcessor.process_documents
    (Scenario.world [Scenario.file "/data" "report" ".txt"] [])
    (Scenario.processor_opt [".txt"] 200 40)
  = Raise (AttributeError "DocumentProcessor" "_load_text").
Proof.
  apply (text_file_is_never_chunked _ _ "/data" (Scenario.file "/data" "report" ".txt"));
    vm_compute; reflexivity.
Defined.

(** C3 (the code at the claim's input).  For every document [D] that
    loading returns, cleaning [D]'s text raises [AttributeError] -- there
    is no cleaned text -- and [process_documents] raises it too: no list
    of chunks comes back from which [D] could be reassembled. *)
Theorem no_chunks_to_reassemble (w : World) (opt : Namespace)
    (docs : list Document) (D : Document) :
  DocumentProcessor._load_all_documents w opt = Ok docs ->
  In D docs ->
  DocumentProcessor.self_text_call "_clean_text" (page_content D)
  = Raise (AttributeError "DocumentProcessor" "_clean_text")
  /\ DocumentProcessor.process_documents w opt
     = Raise (AttributeError "DocumentProcessor" "_clean_text")
  /\ (forall chunks, DocumentProcessor.process_documents w opt <> Ok chunks).
Proof.
  intros Hload HD.
  assert (Hp : DocumentProcessor.process_documents w opt
               = Raise DocumentProcessor.no_clean_text).
  { eapply process_documents_loaded; [eassumption|].
    intros ->. destruct HD. }
  split; [reflexivity|]. split; [exact Hp|].
  intros chunks. rewrite Hp. discriminate.
Qed.

Lemma no_chunks_to_reassemble_witness :
  let w := Scenario.world [Scenario.file "/data" "report" ".pdf"] [Scenario.long_page] in
  let opt := Scenario.processor_opt [".pdf"] 200 40 in
  String.length (page_content Scenario.loaded_long_page) = 1000
  /\ DocumentProcessor._load_all_documents w opt = Ok [Scenario.loaded_long_page]
  /\ DocumentProcessor.process_documents w opt
     = Raise (AttributeError "DocumentProcessor" "_clean_text").
Proof.
  cbv zeta. split; [vm_compute; reflexivity|].
  split; [vm_compute; reflexivity|].
  apply (no_chunks_to_reassemble _ _ [Scenario.loaded_long_page]
           Scenario.loaded_long_page).
  - vm_compute. reflexivity.
  - left. reflexivity.
Defined.




(** ** GetEmbeddings: an unknown provider name *)

Section Embeddings.
Import GetEmbeddings.
Context (w : World) (opt : Namespace).

Lemma truthy_PStr (s : string) : s <> "" -> truthy (PStr s) = true.
Proof.
  intros Hs. simpl. destruct (String.eqb_spec s ""); [contradiction | reflexivity].
Qed.

Lemma is_str_PStr (s t : string) : is_str (PStr s) t = String.eqb s t.
Proof.
  unfold is_str. destruct (String.eqb_spec s t) as [->|Hne].
  - now apply bool_decide_eq_true_2.
  - apply bool_decide_eq_false_2. intros [= Heq]. contradiction.
Qed.

(** A name the dispatch does not know falls through its five tests. *)
Lemma not_recognized (s : string) :
  ~ In s recognized ->
  String.eqb s "openai" = false /\ String.eqb s "cohere" = false
  /\ String.eqb s "google_palm" = false /\ String.eqb s "vertexai" = false
  /\ String.eqb s "bedrock" = false.
Proof.
  intros Hn. repeat split; apply String.eqb_neq; intros ->; apply Hn;
    unfold recognized; simpl; tauto.
Qed.

(** No argument and no [EmbeddingModel] option: the one [ValueError]
    that does leave the method. *)
Lemma no_embedding_provider :
  opt !! "EmbeddingModel" = None ->
  get_embedding_models w opt PNone
  = Raise (ValueError
      "No embedding provider specified (embedding_name or opt.EmbeddingModel).").
Proof.
  intros H. unfold get_embedding_models, getattr_default. rewrite H. reflexivity.
Qed.

End Embeddings.

(** C6 (the code at the claim's inputs).  For every non-empty provider
    name that is not one of the five recognised ones, whether passed as
    the argument or taken from [opt.EmbeddingModel], the [ValueError] of
    the final [else] is raised inside the [try] block and comes out of
    [get_embedding_models] as a [RuntimeError], the kind kept for a
    provider that fails to initialise. *)
Theorem unknown_embedding_provider_is_wrapped (w : World) (opt : Namespace)
    (embedding_name : pyval) (provider : string) :
  py_or embedding_name (getattr_default opt "EmbeddingModel" PNone) = PStr provider ->
  provider <> "" ->
  ~ In provider GetEmbeddings.recognized ->
  GetEmbeddings.get_embedding_models w opt embedding_name
  = Raise (RuntimeError
      ("Failed to initialize embeddings for " +:+ provider +:+ ": "
       +:+ match opt !! "EmbeddingModel" with
           | Some v => "Unknown embedding provider: " +:+ py_str v
           | None => "'Namespace' object has no attribute 'EmbeddingModel'"
           end)).
Proof.
  intros Hname Hne Hunk.
  unfold GetEmbeddings.get_embedding_models.
  fold (py_or embedding_name (getattr_default opt "EmbeddingModel" PNone)).
  rewrite Hname, (truthy_PStr provider Hne). cbn [negb].
  rewrite !is_str_PStr.
  destruct (not_recognized provider Hunk) as (-> & -> & -> & -> & ->).
  unfold getattr. destruct (opt !! "EmbeddingModel") as [v|]; reflexivity.
Qed.

Lemma unknown_embedding_provider_is_wrapped_witness :
  GetEmbeddings.get_embedding_models (Scenario.world [] []) TrainOptions.defaults PNone
  = Raise (RuntimeError
      "Failed to initialize embeddings for OpenAI: Unknown embedding provider: OpenAI").
Proof.
  apply (unknown_embedding_provider_is_wrapped _ TrainOptions.defaults PNone "OpenAI").
  - vm_compute. reflexivity.
  - discriminate.
  - vm_compute. intuition discriminate.
Defined.

(** ** GetLLM: the three documented providers *)

(** Both names are non-empty strings: run [get_chat_model] up to its
    dispatch. *)
Ltac enter_dispatch provider Hmodel :=
  unfold GetLLM.get_chat_model;
  repeat first
    [ rewrite (truthy_PStr provider) by discriminate
    | rewrite (truthy_PStr _ Hmodel)
    | progress cbn [bind negb orb] ].

Section ChatModels.
Import GetLLM.
Context (w : World) (opt : Namespace).

(** An OpenAI model outside the list: the [ValueError] of the final
    [else]. *)
Lemma openai_unknown_model (model : string) :
  model <> "" -> ~ In model openai_models ->
  get_chat_model w opt (PStr "openai") (PStr model)
  = Raise (ValueError ("Unknown LLM provider: openai and model name: " +:+ model)).
Proof.
  intros Hne Hunk. enter_dispatch "openai" Hne.
  assert (Hin : py_in (PStr model) openai_models = false).
  { unfold py_in. destruct (str_in model openai_models) eqn:E; [|reflexivity].
    apply str_in_In in E. contradiction. }
  rewrite Hin, andb_false_r. reflexivity.
Qed.

(** The name [anthropic] matches no branch, the second one being
    spelled [antropic]: every model gives the [ValueError]. *)
Lemma anthropic_any_model (model : string) :
  model <> "" ->
  get_chat_model w opt (PStr "anthropic") (PStr model)
  = Raise (ValueError ("Unknown LLM provider: anthropic and model name: " +:+ model)).
Proof.
  intros Hne. enter_dispatch "anthropic" Hne. reflexivity.
Qed.

End ChatModels.

(** C7 (the code at the claim's inputs).  With the documented provider
    name [google], every non-empty model name -- in the Gemini list or
    not -- makes [get_chat_model] raise [TypeError]: the third test
    subscripts the model name with a tuple where the other two test
    membership in a list. *)
Theorem google_provider_raises_TypeError (w : World) (opt : Namespace)
    (model : string) :
  model <> "" ->
  GetLLM.get_chat_model w opt (PStr "google") (PStr model)
  = Raise (TypeError "string indices must be integers, not 'tuple'").
Proof.
  intros Hne. enter_dispatch "google" Hne. reflexivity.
Qed.

Lemma google_provider_raises_TypeError_witness :
  ~ In "gemini-ultra" GetLLM.google_models
  /\ GetLLM.get_chat_model (Scenario.world [] []) TrainOptions.defaults
       (PStr "google") (PStr "gemini-ultra")
     = Raise (TypeError "string indices must be integers, not 'tuple'").
Proof.
  split.
  - vm_compute. intuition discriminate.
  - apply (google_provider_raises_TypeError _ _ "gemini-ultra"). discriminate.
Defined.

(** ** TrainOptions: one step of the parser *)

Section Parser.
Import TrainOptions.

Lemma option_strings_Store o a :
  In o option_strings -> snd o = Store a -> In a arguments /\ fst o = dest a.
Proof.
  unfold option_strings. intros [<-|Hin] Ho; [discriminate|].
  apply in_map_iff in Hin as (a' & <- & Ha'). cbn in Ho. injection Ho as ->. auto.
Qed.

Lemma prefix_refl s : String.prefix s s = true.
Proof.
  induction s as [|c s IH]; [reflexivity|]. cbn.
  destruct (ascii_dec c c); [exact IH | contradiction].
Qed.

(** A name stands for a declared argument only: for the one of that
    name, or for one the name abbreviates. *)
Lemma find_argument_declared name a :
  find_argument name = Some a ->
  In a arguments /\ String.prefix name (dest a) = true.
Proof.
  unfold find_argument, find_action.
  destruct (find (fun o => String.eqb (fst o) name) option_strings) as [o|] eqn:E.
  - apply find_some in E as [Hin Heq]. apply String.eqb_eq in Heq.
    destruct (snd o) as [a'|] eqn:Ho; [|discriminate]. intros [= ->].
    destruct (option_strings_Store o a Hin Ho) as [Ha Hd].
    split; [exact Ha|]. rewrite <- Hd, Heq. apply prefix_refl.
  - destruct (List.filter (fun o => String.prefix name (fst o)) option_strings)
      as [|o [|o' l]] eqn:F; try discriminate.
    assert (Hin : In o (List.filter (fun o => String.prefix name (fst o))
                          option_strings))
      by (rewrite F; now left).
    apply filter_In in Hin as [Hin Hpre].
    destruct (snd o) as [a'|] eqn:Ho; [|discriminate]. intros [= ->].
    destruct (option_strings_Store o a Hin Ho) as [Ha Hd].
    split; [exact Ha|]. now rewrite <- Hd.
Qed.

(** One step of the parser that ends well: the name stands for a
    declared argument, the value converts and is among the choices, and
    the rest is parsed with the value stored. *)
Lemma parse_args_cons flag raw rest ns0 ns :
  parse_args ((flag, raw) :: rest) ns0 = Ok ns ->
  exists a v,
    find_argument (fst (split_option flag raw)) = Some a
    /\ convert (arg_type a) (snd (split_option flag raw)) = Some v
    /\ match choices a with
       | Some cs => str_in (snd (split_option flag raw)) cs = true
       | None => True
       end
    /\ parse_args rest (<[dest a := v]> ns0) = Ok ns.
Proof.
  cbn [parse_args].
  destruct (find_argument (fst (split_option flag raw))) as [a|] eqn:Ha;
    [|discriminate].
  destruct (convert (arg_type a) (snd (split_option flag raw))) as [v|] eqn:Hv;
    [|discriminate].
  destruct (choices a) as [cs|] eqn:Hcs.
  - destruct (str_in (snd (split_option flag raw)) cs) eqn:Hc; [|discriminate].
    intros H. exists a, v. rewrite Hcs. auto.
  - intros H. exists a, v. rewrite Hcs. auto.
Qed.

End Parser.

(** ** create_knowledge_graph: the allow-list *)

Section AllowList.
Import KnowledgeGraph.
Context (w : World).

(** The transformer's arguments depend on four attributes of the
    options, none of them [AllowedNodes]. *)
Lemma transformer_args_AllowedNodes (opt : Namespace) (v : pyval) :
  transformer_args (<["AllowedNodes" := v]> opt) = transformer_args opt.
Proof.
  unfold transformer_args, getattr_default.
  now rewrite !lookup_insert_ne by discriminate.
Qed.

(** An options object without the attribute [allowed_nodes] asks the
    transformer for no restriction on labels. *)
Lemma transformer_args_unrestricted (opt : Namespace) :
  opt !! "allowed_nodes" = None ->
  allowed_nodes (transformer_args opt) = PNone.
Proof. intros H. unfold transformer_args, getattr_default. now rewrite H. Qed.

Lemma parse_args_keeps_None (key : string) :
  Forall (fun a => TrainOptions.dest a <> key) TrainOptions.arguments ->
  forall argv ns ns',
    ns !! key = None ->
    TrainOptions.parse_args argv ns = Ok ns' ->
    ns' !! key = None.
Proof.
  intros Hkey. induction argv as [|[flag raw] argv IH]; intros ns ns' Hns Hparse.
  - cbn in Hparse. now injection Hparse as <-.
  - apply parse_args_cons in Hparse as (a & v & Ea & _ & _ & Hparse).
    apply find_argument_declared in Ea as [Hin _].
    rewrite List.Forall_forall in Hkey.
    apply (IH (<[TrainOptions.dest a := v]> ns)); [|exact Hparse].
    rewrite lookup_insert_ne by (now apply Hkey). exact Hns.
Qed.

(** The parser leaves [run] with [SystemExit] only. *)
Lemma parse_args_Raise argv ns e :
  TrainOptions.parse_args argv ns = Raise e -> exists code, e = SystemExit code.
Proof.
  revert ns. induction argv as [|[flag raw] argv IH]; intros ns;
    cbn [TrainOptions.parse_args]; [discriminate|].
  destruct (TrainOptions.find_argument _) as [a|]; [|intros [= <-]; eauto].
  destruct (TrainOptions.convert _ _) as [v|]; [|intros [= <-]; eauto].
  destruct (TrainOptions.choices a) as [cs|];
    [destruct (str_in _ cs); [|intros [= <-]; eauto]|]; apply IH.
Qed.

(** No declared option is called [key]: the parsed options have no
    such attribute, whatever the command line. *)
Lemma parse_undeclared (key : string) argv ns :
  Forall (fun a => TrainOptions.dest a <> key) TrainOptions.arguments ->
  TrainOptions.defaults !! key = None ->
  TrainOptions.parse argv = Ok ns -> ns !! key = None.
Proof. intros Hkey Hdef. now apply parse_args_keeps_None. Qed.

Lemma input_dir_undeclared :
  Forall (fun a => TrainOptions.dest a <> "input_dir") TrainOptions.arguments.
Proof. repeat constructor; discriminate. Qed.

Lemma allowed_nodes_undeclared :
  Forall (fun a => TrainOptions.dest a <> "allowed_nodes") TrainOptions.arguments.
Proof. repeat constructor; discriminate. Qed.

End AllowList.

(** C5 (the code at the claim's input).  [create_knowledge_graph] reads
    the attribute [allowed_nodes]; the options declare [AllowedNodes].
    So (1) the value of [AllowedNodes] has no influence on what
    [create_knowledge_graph] does; (2) for every command line the
    transformer is asked for no restriction; and (3) with
    [--AllowedNodes Patient,Disease] and a transformer that honours the
    restriction it is given, the ingested graph document still holds the
    [Doctor] node and the relationship that touches it. *)
Theorem AllowedNodes_is_never_read :
  (forall (w : World) docs (opt : Namespace) (v : pyval) graph llm include_source db,
     KnowledgeGraph.create_knowledge_graph w docs (<["AllowedNodes" := v]> opt)
       graph llm include_source db
     = KnowledgeGraph.create_knowledge_graph w docs opt graph llm include_source db)
  /\ (forall argv,
        match TrainOptions.parse argv with
        | Ok opt => allowed_nodes (KnowledgeGraph.transformer_args opt) = PNone
        | Raise _ => True
        end)
  /\ TrainOptions.parse [("AllowedNodes", "Patient,Disease")] = Ok Scenario.restricted_opt
  /\ KnowledgeGraph.create_knowledge_graph (Scenario.world [] []) [Scenario.chunk]
       Scenario.restricted_opt (Some Scenario.neo4j) (PStr "ChatOpenAI") true []
     = (Ok 1%nat,
        [([{| nodes := [Scenario.patient; Scenario.doctor];
              relationships := [Scenario.treated_by];
              source := Scenario.chunk |}], true)])
  /\ node_type Scenario.doctor = "Doctor".
Proof.
  split; [|split; [|split; [|split]]].
  - intros. unfold KnowledgeGraph.create_knowledge_graph.
    now rewrite transformer_args_AllowedNodes.
  - intros argv. destruct (TrainOptions.parse argv) as [opt|e] eqn:E; [|exact I].
    apply transformer_args_unrestricted.
    apply (parse_undeclared "allowed_nodes" argv); auto using allowed_nodes_undeclared.
  - vm_compute. reflexivity.
  - vm_compute. reflexivity.
  - reflexivity.
Qed.

(** The stand-in transformer does filter when the list reaches it under
    the name it is read by: the [Doctor] node and its relationship go. *)
Example allowed_nodes_attribute_restricts :
  KnowledgeGraph.create_knowledge_graph (Scenario.world [] []) [Scenario.chunk]
    (<["allowed_nodes" := PList ["Patient"; "Disease"]]> TrainOptions.defaults)
    (Some Scenario.neo4j) (PStr "ChatOpenAI") true []
  = (Ok 1%nat,
     [([{| nodes := [Scenario.patient]; relationships := [];
           source := Scenario.chunk |}], true)]).
Proof. vm_compute. reflexivity. Qed.

(** ** Neo4jStore: operations on a store that is not connected *)

(** C8 (as amended).  On a store whose [graph] is [None] -- the state
    [__init__] leaves it in -- each of the three methods that test the
    connection, [clear], [add_graph_documents] and
    [create_hybrid_indexes], raises the [RuntimeError] that reports
    "Graph not connected", and the store and the database are as
    before. *)
Theorem disconnected_store_refuses (w : World) (store : GraphDb.Neo4jStore)
    (db : DB w) (graph_documents : list GraphDocument) (include_source : bool) :
  GraphDb.graph store = None ->
  GraphDb.clear w (store, db)
  = (Raise (RuntimeError "Failed to clear Neo4j database: Graph not connected"),
     (store, db))
  /\ GraphDb.add_graph_documents w graph_documents include_source (store, db)
     = (Raise (RuntimeError "Failed to add documents to Neo4j: Graph not connected"),
        (store, db))
  /\ GraphDb.create_hybrid_indexes w (store, db)
     = (Raise (RuntimeError "Graph not connected."), (store, db)).
Proof.
  intros Hg.
  unfold GraphDb.clear, GraphDb.add_graph_documents, GraphDb.create_hybrid_indexes,
    mtry, mbind, GraphDb.get_self.
  cbn [fst snd]. rewrite Hg. repeat split.
Qed.

Lemma disconnected_store_refuses_witness :
  let w := Scenario.world [] [] in
  let store := GraphDb.__init__ TrainOptions.defaults in
  let db : DB w := [([Scenario.candidates Scenario.chunk], true)] in
  GraphDb.graph store = None
  /\ GraphDb.clear w (store, db)
     = (Raise (RuntimeError "Failed to clear Neo4j database: Graph not connected"),
        (store, db))
  /\ GraphDb.add_graph_documents w [Scenario.candidates Scenario.chunk] true (store, db)
     = (Raise (RuntimeError "Failed to add documents to Neo4j: Graph not connected"),
        (store, db))
  /\ GraphDb.create_hybrid_indexes w (store, db)
     = (Raise (RuntimeError "Graph not connected."), (store, db)).
Proof.
  cbv zeta. split; [reflexivity|].
  apply (disconnected_store_refuses (Scenario.world [] [])
           (GraphDb.__init__ TrainOptions.defaults)).
  reflexivity.
Defined.

(** The two search methods are another matter: [__init__] never sets
    [vector], so before [create_hybrid_indexes] has succeeded reading it
    raises [AttributeError]. *)
Lemma search_before_indexes (w : World) (store : GraphDb.Neo4jStore) (db : DB w)
    (hybrid : bool) (query : string) (k : pyval) (with_score : bool) :
  GraphDb.vector store = None ->
  GraphDb.search w hybrid query k with_score (store, db)
  = (Raise (AttributeError "Neo4jStore" "vector"), (store, db)).
Proof.
  intros Hv. unfold GraphDb.search, mbind, GraphDb.get_self. cbn [fst snd].
  now rewrite Hv.
Qed.

(** C8 as stated fails.  On the store [__init__] returns, which is not
    connected, [getSchema] is no operation at all -- the call raises
    [AttributeError], the class defining no such method -- and of the
    operations the class does have, [similarity_search] and
    [hybrid_search] raise [AttributeError] too, not the error that
    reports a missing connection. *)
Lemma new_store_raises_AttributeError :
  let w := Scenario.world [] [] in
  let store := GraphDb.__init__ TrainOptions.defaults in
  let db : DB w := [([Scenario.candidates Scenario.chunk], true)] in
  GraphDb.graph store = None
  /\ GraphDb.call_schema_method w "getSchema" (store, db)
     = (Raise (AttributeError "Neo4jStore" "getSchema"), (store, db))
  /\ GraphDb.similarity_search w "Who treats John?" (PInt 5) false (store, db)
     = (Raise (AttributeError "Neo4jStore" "vector"), (store, db))
  /\ GraphDb.hybrid_search w "Who treats John?" (PInt 5) false (store, db)
     = (Raise (AttributeError "Neo4jStore" "vector"), (store, db)).
Proof. cbv zeta. repeat split. Qed.

(** The two functions of [knowledge_graph.py] that are handed the
    store's connection test it as well: given [None], ingestion
    ([create_knowledge_graph]) and question answering ([cypher_qa], which
    reads the schema) raise [RuntimeError] and leave the database
    alone. *)
Lemma graph_functions_refuse_None (w : World) (db : DB w) (docs : list Document)
    (opt : Namespace) (llm : pyval) (include_source : bool)
    (question : string) (verbose : bool) :
  KnowledgeGraph.create_knowledge_graph w docs opt None llm include_source db
  = (Raise (RuntimeError "Graph not connected"), db)
  /\ KnowledgeGraph.cypher_qa w question opt None llm verbose db
     = (Raise (RuntimeError "Graph not connected"), db).
Proof. split; reflexivity. Qed.

(** ** train.run *)

Section Run.
Context (w : World).

(** [store.connect()]: the class has [_connection] and no [connect]. *)
Lemma connect_is_undefined (st : GraphDb.St w) :
  GraphDb.call_graph_method w "connect" st
  = (Raise (AttributeError "Neo4jStore" "connect"), st).
Proof. reflexivity. Qed.

(** Options from [TrainOptions] have no [input_dir]: step 2 stops at
    its first attribute access. *)
Lemma process_documents_parsed argv opt :
  TrainOptions.parse argv = Ok opt ->
  DocumentProcessor.process_documents w opt
  = Raise (AttributeError "Namespace" "input_dir").
Proof.
  intros Hparse.
  assert (Hnone : opt !! "input_dir" = None).
  { apply (parse_undeclared "input_dir" argv); auto using input_dir_undeclared. }
  apply process_documents_load_error.
  unfold DocumentProcessor._load_all_documents.
  now rewrite (getattr_None _ _ Hnone).
Qed.

End Run.

(** C9 (as amended).  Every execution of [run] ends at step 1, when the
    option parser exits, or at step 2, where [process_documents] raises
    [AttributeError] because the parsed options have no [input_dir]; the
    database is untouched.  Step 3 would raise [AttributeError] as well
    -- [Neo4jStore] has no [connect] -- but is not reached, and neither
    is ingestion, index construction or question answering. *)
Theorem run_stops_before_connection (w : World) (argv : list (string * string))
    (question : string) (db : DB w) :
  ((exists code,
      Train.run w argv question db
      = (Train.Failed Train.ParseOptions (SystemExit code), db))
   \/ Train.run w argv question db
      = (Train.Failed Train.Preprocess (AttributeError "Namespace" "input_dir"), db))
  /\ (forall st, GraphDb.call_graph_method w "connect" st
                 = (Raise (AttributeError "Neo4jStore" "connect"), st))
  /\ match fst (Train.run w argv question db) with
     | Train.Finished _ => False
     | Train.Failed s _ => s <> Train.ConnectGraph /\ Train.after_connection s = false
     end.
Proof.
  assert (H : (exists code,
                 Train.run w argv question db
                 = (Train.Failed Train.ParseOptions (SystemExit code), db))
              \/ Train.run w argv question db
                 = (Train.Failed Train.Preprocess
                      (AttributeError "Namespace" "input_dir"), db)).
  { unfold Train.run.
    destruct (TrainOptions.parse argv) as [opt|e] eqn:Hparse.
    - right. now rewrite (process_documents_parsed w argv opt Hparse).
    - left. apply parse_args_Raise in Hparse as [code ->]. eauto. }
  split; [exact H|]. split; [apply connect_is_undefined|].
  destruct H as [[code ->] | ->]; cbn [fst]; split; (discriminate || reflexivity).
Qed.

(** C9 as stated fails: with an empty command line [run] raises its
    [AttributeError] at step 2, the preprocessing, not at step 3, the
    graph connection. *)
Lemma run_fails_at_preprocessing :
  Train.run (Scenario.world [Scenario.file "/data" "report" ".pdf"] [Scenario.page])
    [] "Who treats John?" []
  = (Train.Failed Train.Preprocess (AttributeError "Namespace" "input_dir"), [])
  /\ Train.Preprocess <> Train.ConnectGraph.
Proof. split; [vm_compute; reflexivity | discriminate]. Qed.

(** A batch of two documents, split into two chunks and one chunk: the
    third chunk is number 2, not a second number 0. *)
Example chunk_index_of_two_documents :
  map DocumentProcessor.chunk_index
      (DocumentProcessor.add_chunk_index (PInt 200) (PInt 40) 0
         [ {| page_content := "first document, first chunk";
              metadata := {[ "source" := PStr "/data/a.pdf" ]} |};
           {| page_content := "first document, second chunk";
              metadata := {[ "source" := PStr "/data/a.pdf" ]} |};
           {| page_content := "second document, only chunk";
              metadata := {[ "source" := PStr "/data/b.pdf" ]} |} ])
  = [Some (PInt 0); Some (PInt 1); Some (PInt 2)].
Proof. vm_compute. reflexivity. Qed.

(** * Further properties *)

(** Closes an equation between closed terms by evaluating both sides. *)
Ltac evaluate :=
  lazymatch goal with
  | |- _ = ?rhs => vm_cast_no_check (@eq_refl _ rhs)
  end.

(** ** DocumentProcessor: loading *)

Section Loading.
Import DocumentProcessor.
Context (w : World).

Lemma load_pdf_pages path pages :
  load_and_split w (path_str path) = Ok pages ->
  pdf_pages w path
  = map (fun p => {| page_content := page_content p;
                     metadata := <["file_name" := PStr (name path)]>
                                   (<["source" := PStr (path_str path)]> (metadata p)) |})
        pages
  /\ _load_pdf w path = Ok (pdf_pages w path).
Proof. intros H. unfold pdf_pages, _load_pdf. rewrite H. cbn [bind]. auto. Qed.

(** The scan gets past a prefix of paths that pass, keeping the pages of
    its PDFs in order. *)
Lemma load_paths_prefix exts pre rest docs :
  forallb (passes w exts) pre = true ->
  load_paths w exts (pre ++ rest)%list docs
  = load_paths w exts rest
      (docs ++ flat_map (pdf_pages w) (List.filter (allowed exts) pre))%list.
Proof.
  revert docs. induction pre as [|q pre IH]; intros docs Hpre.
  - cbn. now rewrite app_nil_r.
  - cbn [forallb] in Hpre. apply andb_prop in Hpre as [Hq Hpre].
    cbn [app load_paths List.filter]. unfold passes in Hq. unfold allowed at 1.
    destruct (str_in (lower (suffix q)) exts) eqn:Hin; [|now apply IH].
    apply andb_prop in Hq as [Hpdf Hload]. rewrite Hpdf.
    destruct (load_and_split w (path_str q)) as [pages|e] eqn:Hpages;
      [|discriminate].
    destruct (load_pdf_pages q pages Hpages) as [_ Hcall].
    change (self_path_call w "_load_pdf" q) with (_load_pdf w q).
    rewrite Hcall. cbn [bind flat_map]. rewrite IH by assumption.
    now rewrite app_assoc.
Qed.

End Loading.

(** X1.  [_load_pdf] returns one document per page the PDF loader
    returns, in order and with the text untouched; each carries the
    file's path under ["source"] and its name under ["file_name"], and
    keeps every other metadata key of the page.  A failure of the loader
    comes out as it is. *)
Theorem load_pdf_provenance (w : World) (path : Path) :
  match load_and_split w (path_str path) with
  | Raise e => DocumentProcessor._load_pdf w path = Raise e
  | Ok pages =>
      exists docs,
        DocumentProcessor._load_pdf w path = Ok docs
        /\ Forall2 (fun p d =>
                      page_content d = page_content p
                      /\ metadata d !! "source" = Some (PStr (path_str path))
                      /\ metadata d !! "file_name" = Some (PStr (name path))
                      /\ forall k, k <> "source" -> k <> "file_name" ->
                                   metadata d !! k = metadata p !! k)
                   pages docs
  end.
Proof.
  unfold DocumentProcessor._load_pdf.
  destruct (load_and_split w (path_str path)) as [pages|e]; [|reflexivity].
  cbn [bind]. eexists. split; [reflexivity|].
  induction pages as [|p pages IH]; cbn [map]; constructor; [|exact IH].
  cbn [page_content metadata]. split; [reflexivity|]. split; [|split].
  - rewrite lookup_insert_ne by discriminate. apply lookup_insert_eq.
  - apply lookup_insert_eq.
  - intros k Hs Hf. now rewrite !lookup_insert_ne by congruence.
Qed.

(** X2.  Files whose extension is not among the allowed ones play no
    part in loading: the outcome of the directory scan -- the documents
    or the exception -- is that of the scan over the allowed files
    alone. *)
Theorem scan_ignores_other_files (w : World) (exts : list string)
    (paths : list Path) (documents : list Document) :
  DocumentProcessor.load_paths w exts paths documents
  = DocumentProcessor.load_paths w exts (List.filter (allowed exts) paths) documents.
Proof.
  revert documents. induction paths as [|q paths IH]; intros documents; [reflexivity|].
  cbn [DocumentProcessor.load_paths List.filter]. unfold allowed at 1.
  destruct (str_in (lower (suffix q)) exts) eqn:Hin; [|apply IH].
  cbn [DocumentProcessor.load_paths]. rewrite Hin.
  destruct (String.eqb (lower (suffix q)) ".pdf").
  - destruct (DocumentProcessor.self_path_call w "_load_pdf" q) as [pages|e];
      [|reflexivity].
    cbn [bind]. apply IH.
  - destruct (str_in (lower (suffix q)) [".txt"; ".md"]); reflexivity.
Qed.

(** X3.  When every allowed file of the directory is a PDF that loads,
    [_load_all_documents] returns the pages of these PDFs, file after
    file in the order of the scan. *)
Theorem pdfs_load_in_scan_order (w : World) (opt : Namespace)
    (dir : string) (es : list string) :
  opt !! "input_dir" = Some (PStr dir) ->
  iter_strings (getattr_default opt "extensions" (PList [".pdf"])) = Ok es ->
  dir_exists w dir = true ->
  forallb (DocumentProcessor.passes w (map lower es)) (rglob w dir) = true ->
  DocumentProcessor._load_all_documents w opt
  = Ok (flat_map (pdf_pages w) (List.filter (allowed (map lower es)) (rglob w dir))).
Proof.
  intros Hdir Hes Hex Hpass. unfold DocumentProcessor._load_all_documents.
  rewrite (getattr_Some _ _ _ Hdir). cbn [bind DocumentProcessor.to_path].
  rewrite Hes. cbn [bind]. rewrite Hex. cbn [negb].
  rewrite <- (app_nil_r (rglob w dir)) at 1.
  rewrite load_paths_prefix by assumption. reflexivity.
Qed.

Lemma pdfs_load_in_scan_order_witness :
  DocumentProcessor._load_all_documents
    (Scenario.world [Scenario.file "/data" "notes" ".txt";
                     Scenario.file "/data" "report" ".PDF";
                     Scenario.file "/data" "annex" ".pdf"] [Scenario.page])
    (delete "extensions" (Scenario.processor_opt [] 200 40))
  = Ok (map (fun f => {| page_content := page_content Scenario.page;
                         metadata := <["file_name" := PStr f]>
                                       (<["source" := PStr ("/data/" +:+ f)]>
                                          (metadata Scenario.page)) |})
            ["report.PDF"; "annex.pdf"]).
Proof.
  rewrite (pdfs_load_in_scan_order _ _ "/data" [".pdf"]);
    vm_compute; reflexivity.
Defined.

(** X4.  The scan stops at the first allowed file that does not pass and
    returns no document: a file whose allowed extension is neither
    [.pdf] nor [.txt] nor [.md] raises [ValueError] naming the extension
    as the file spells it, a PDF the loader fails on raises the loader's
    exception as it is. *)
Theorem scan_stops_at_first_failure (w : World) (exts : list string)
    (pre post : list Path) (q : Path) (documents : list Document) :
  forallb (DocumentProcessor.passes w exts) pre = true ->
  allowed exts q = true ->
  DocumentProcessor.is_text exts q = false ->
  DocumentProcessor.load_paths w exts (pre ++ q :: post)%list documents
  = if String.eqb (lower (suffix q)) ".pdf" then
      match load_and_split w (path_str q) with
      | Raise e => Raise e
      | Ok _ =>
          DocumentProcessor.load_paths w exts post
            (documents
             ++ flat_map (pdf_pages w) (List.filter (allowed exts) (pre ++ [q])))%list
      end
    else Raise (ValueError ("Unsupported file extension: " +:+ suffix q)).
Proof.
  intros Hpre Hq Htext. rewrite load_paths_prefix by assumption.
  cbn [DocumentProcessor.load_paths]. unfold allowed in Hq. rewrite Hq.
  unfold DocumentProcessor.is_text in Htext. rewrite Hq in Htext. cbn [andb] in Htext.
  destruct (String.eqb (lower (suffix q)) ".pdf") eqn:Hpdf.
  - change (DocumentProcessor.self_path_call w "_load_pdf" q)
      with (DocumentProcessor._load_pdf w q).
    destruct (load_and_split w (path_str q)) as [pages|e] eqn:Hpages.
    + destruct (load_pdf_pages w q pages Hpages) as [_ ->]. cbn [bind].
      rewrite List.filter_app, flat_map_app. cbn [List.filter]. unfold allowed at 3.
      rewrite Hq. cbn [flat_map]. now rewrite app_nil_r, app_assoc.
    + unfold DocumentProcessor._load_pdf. now rewrite Hpages.
  - now rewrite Htext.
Qed.

Lemma scan_stops_at_first_failure_witness :
  DocumentProcessor.load_paths
    (Scenario.world [] [Scenario.page]) [".pdf"; ".docx"]
    [Scenario.file "/data" "report" ".pdf"; Scenario.file "/data" "Draft" ".DOCX";
     Scenario.file "/data" "annex" ".pdf"] []
  = Raise (ValueError "Unsupported file extension: .DOCX").
Proof.
  apply (scan_stops_at_first_failure (Scenario.world [] [Scenario.page])
           [".pdf"; ".docx"] [Scenario.file "/data" "report" ".pdf"]
           [Scenario.file "/data" "annex" ".pdf"]
           (Scenario.file "/data" "Draft" ".DOCX") []);
    vm_compute; reflexivity.
Defined.



(** ** DocumentProcessor: the post-pass and the splitter *)

(** X7.  Step 4 of [process_documents] changes nothing but the three
    keys it writes: chunk for chunk the text is the splitter's, every
    other metadata key keeps its value, and ["chunk_size"] and
    ["chunk_overlap"] hold the two option values -- also where the
    splitter's metadata had these keys already. *)
Theorem chunk_postpass_keeps_chunks (chunk_size chunk_overlap : pyval) (idx : nat)
    (chunked_docs : list Document) :
  Forall2 (fun d d' =>
             page_content d' = page_content d
             /\ metadata d' !! "chunk_size" = Some chunk_size
             /\ metadata d' !! "chunk_overlap" = Some chunk_overlap
             /\ forall k, ~ In k chunk_keys -> metadata d' !! k = metadata d !! k)
          chunked_docs
          (DocumentProcessor.add_chunk_index chunk_size chunk_overlap idx chunked_docs).
Proof.
  revert idx.
  induction chunked_docs as [|d docs IH]; intros idx;
    cbn [DocumentProcessor.add_chunk_index]; constructor; [|apply IH].
  unfold DocumentProcessor.set_chunk_metadata. cbn [page_content metadata].
  split; [reflexivity|]. split; [|split].
  - rewrite lookup_insert_ne by discriminate. apply lookup_insert_eq.
  - apply lookup_insert_eq.
  - intros k Hk. unfold chunk_keys in Hk. cbn [In] in Hk.
    rewrite !lookup_insert_ne; [reflexivity | | |]; intros <-; tauto.
Qed.

(** X8.  [process_documents] never hands a document to the splitter:
    two splitters that agree on the empty list of documents give the
    same outcome of [process_documents], on every directory and for all
    options. *)
Theorem splitter_sees_no_document (w : World)
    (split split' : pyval -> pyval -> list Document -> result (list Document))
    (opt : Namespace) :
  (forall cs co, split cs co [] = split' cs co []) ->
  DocumentProcessor.process_documents (with_splitter w split) opt
  = DocumentProcessor.process_documents (with_splitter w split') opt.
Proof.
  intros Hempty. unfold DocumentProcessor.process_documents.
  change (DocumentProcessor._load_all_documents (with_splitter w split) opt)
    with (DocumentProcessor._load_all_documents w opt).
  change (DocumentProcessor._load_all_documents (with_splitter w split') opt)
    with (DocumentProcessor._load_all_documents w opt).
  destruct (DocumentProcessor._load_all_documents w opt) as [[|d raw]|e];
    [|reflexivity|reflexivity].
  cbn [bind DocumentProcessor.clean_docs].
  destruct (getattr opt "chunk_size") as [cs|e]; [|reflexivity]. cbn [bind].
  destruct (getattr opt "chunk_overlap") as [co|e]; [|reflexivity]. cbn [bind].
  cbn [split_documents with_splitter]. now rewrite Hempty.
Qed.

Lemma splitter_sees_no_document_witness :
  DocumentProcessor.process_documents
    (with_splitter (Scenario.world [Scenario.file "/data" "report" ".pdf"]
                      [Scenario.long_page]) Scenario.splitter)
    (Scenario.processor_opt [".pdf"] 200 40)
  = DocumentProcessor.process_documents
      (with_splitter (Scenario.world [Scenario.file "/data" "report" ".pdf"]
                        [Scenario.long_page]) refusing_splitter)
      (Scenario.processor_opt [".pdf"] 200 40).
Proof.
  apply (splitter_sees_no_document _ Scenario.splitter refusing_splitter).
  intros cs co. reflexivity.
Defined.

(** ** TrainOptions: what parsing yields *)

Section Parsing.
Import TrainOptions.

(** The declared names are distinct: each argument is the one declared
    under its name. *)
Lemma declared_dest a : In a arguments -> declared (dest a) = Some a.
Proof.
  unfold arguments, base_arguments. cbn [app In]. intros Hin.
  repeat (destruct Hin as [<-|Hin]; [reflexivity|]). destruct Hin.
Qed.






(** A property of the value of one attribute that the default has and
    every accepted command-line value has holds after parsing. *)
Lemma parse_args_invariant (key : string) (P : pyval -> Prop) :
  (forall a raw v,
     declared key = Some a -> convert (arg_type a) raw = Some v ->
     match choices a with Some cs => str_in raw cs = true | None => True end ->
     P v) ->
  forall argv ns0 ns,
    (exists v, ns0 !! key = Some v /\ P v) ->
    parse_args argv ns0 = Ok ns ->
    exists v, ns !! key = Some v /\ P v.
Proof.
  intros Hconv. induction argv as [|[flag raw] argv IH]; intros ns0 ns Hns0 Hparse.
  - cbn in Hparse. injection Hparse as <-. exact Hns0.
  - apply parse_args_cons in Hparse as (a & v & Hfind & Hv & Hch & Hparse).
    apply IH in Hparse; [exact Hparse|].
    apply find_argument_declared in Hfind as [Hin _].
    destruct (decide (dest a = key)) as [Hd|Hne].
    + exists v. rewrite Hd, lookup_insert_eq. split; [reflexivity|].
      apply (Hconv a (snd (split_option flag raw))); [|assumption..].
      rewrite <- Hd. now apply declared_dest.
    + rewrite lookup_insert_ne by exact Hne. exact Hns0.
Qed.

Lemma defaults_dom k : is_Some (defaults !! k) <-> In k dests.
Proof.
  unfold defaults. rewrite <- not_eq_None_Some.
  rewrite <- (not_elem_of_list_to_map (M := gmap string)).
  rewrite list_elem_of_In.
  change ((map (fun a => (dest a, default a)) arguments).*1) with dests.
  split; [apply dec_stable | tauto].
Qed.

End Parsing.

(** X9.  Whatever the command line, the options [TrainOptions().parse()]
    returns have exactly the 24 declared attributes: an attribute exists
    if and only if some [add_argument] declares it. *)
Theorem parsed_options_have_the_declared_attributes
    (argv : list (string * string)) (ns : Namespace) (k : string) :
  TrainOptions.parse argv = Ok ns ->
  (is_Some (ns !! k) <-> In k dests).
Proof.
  unfold TrainOptions.parse.
  generalize (defaults_dom k). generalize TrainOptions.defaults.
  induction argv as [|[flag raw] argv IH]; intros ns0 Hdom Hparse.
  - cbn in Hparse. now injection Hparse as <-.
  - apply parse_args_cons in Hparse as (a & v & Hfind & _ & _ & Hparse).
    apply IH in Hparse; [exact Hparse|].
    destruct (find_argument_declared _ _ Hfind) as [Hin _].
    rewrite lookup_insert_is_Some. split.
    + intros [<-|[_ Hs]]; [|now apply Hdom].
      unfold dests. now apply in_map.
    + intros Hk. destruct (decide (TrainOptions.dest a = k)); [now left|].
      right. split; [assumption | now apply Hdom].
Qed.

Lemma parsed_options_have_the_declared_attributes_witness :
  (exists ns, TrainOptions.parse [("ChunkSize", "300")] = Ok ns
              /\ (is_Some (ns !! "ChunkSize") <-> In "ChunkSize" dests)
              /\ (is_Some (ns !! "chunk_size") <-> In "chunk_size" dests))
  /\ length dests = 24%nat /\ ~ In "chunk_size" dests.
Proof.
  split.
  - exists (<["ChunkSize" := PInt 300]> TrainOptions.defaults).
    split; [evaluate|].
    split; apply (parsed_options_have_the_declared_attributes [("ChunkSize", "300")]);
      evaluate.
  - split; [reflexivity|]. vm_compute. intuition discriminate.
Defined.







(** ** GetLLM and GetEmbeddings: further behaviour *)

Lemma undeclared_option (key : string) (argv : list (string * string)) (opt : Namespace) :
  ~ In key dests -> TrainOptions.parse argv = Ok opt -> opt !! key = None.
Proof.
  intros Hkey Hparse. apply (parse_undeclared key argv); [| |exact Hparse].
  - apply List.Forall_forall. intros a Ha Heq. apply Hkey.
    unfold dests. rewrite <- Heq. now apply in_map.
  - apply eq_None_not_Some. intros Hs. apply Hkey. now apply defaults_dom.
Qed.

(** Whatever the command line, [LLMProvider] is a list. *)
Lemma parsed_LLMProvider_is_list (argv : list (string * string)) (opt : Namespace) :
  TrainOptions.parse argv = Ok opt -> exists l, opt !! "LLMProvider" = Some (PList l).
Proof.
  intros Hparse.
  destruct (parse_args_invariant "LLMProvider" (fun v => exists l, v = PList l))
    with (argv := argv) (ns0 := TrainOptions.defaults) (ns := opt)
    as (v & Hv & l & ->).
  - intros a raw v Ha. vm_compute in Ha. injection Ha as <-.
    intros [= <-] _. eauto.
  - eexists. split; [vm_compute; reflexivity | eauto].
  - exact Hparse.
  - eauto.
Qed.

Lemma getitem_tuple_raises (v : pyval) : exists e, GetLLM.getitem_tuple v = Raise e.
Proof. destruct v; cbn; eauto. Qed.

(** X13.  Options that come from [TrainOptions] can never produce a chat
    model: for every accepted command line and every pair of arguments
    [get_chat_model] raises, whatever the model constructors would do.
    Called without arguments, as [train.run] calls it, it raises
    [AttributeError] on [.lower()], [LLMProvider] being a list. *)
Theorem parsed_options_give_no_chat_model (w : World)
    (argv : list (string * string)) (opt : Namespace)
    (provider_name model_name : pyval) :
  TrainOptions.parse argv = Ok opt ->
  (exists e, GetLLM.get_chat_model w opt provider_name model_name = Raise e)
  /\ GetLLM.get_chat_model w opt PNone model_name
     = Raise (AttributeError "list" "lower").
Proof.
  intros Hparse.
  destruct (parsed_LLMProvider_is_list argv opt Hparse) as (l & Hprov).
  assert (Hmodel : opt !! "LLMModel" = None)
    by (apply (undeclared_option _ argv); [vm_compute; intuition discriminate | exact Hparse]).
  assert (Htemp : opt !! "temperature" = None)
    by (apply (undeclared_option _ argv); [vm_compute; intuition discriminate | exact Hparse]).
  assert (Hnone : GetLLM.get_chat_model w opt PNone model_name
                  = Raise (AttributeError "list" "lower")).
  { unfold GetLLM.get_chat_model. cbn [truthy].
    rewrite (getattr_Some _ _ _ Hprov). reflexivity. }
  split; [|exact Hnone].
  assert (Hconstruct : forall cls name h,
             exists e, try_except (GetLLM.construct w opt cls name) h = Raise e).
  { intros cls name h. unfold GetLLM.construct.
    rewrite (getattr_None _ _ Htemp). cbn. eauto. }
  unfold GetLLM.get_chat_model.
  destruct (truthy provider_name) eqn:Hp.
  - cbn [bind]. destruct (truthy model_name) eqn:Hm.
    + cbn [bind]. rewrite Hp, Hm. cbn [negb orb].
      destruct (bool_decide (provider_name = PStr "openai")
                && GetLLM.py_in model_name GetLLM.openai_models);
        [apply Hconstruct|].
      destruct (bool_decide (provider_name = PStr "antropic")
                && GetLLM.py_in model_name GetLLM.antropic_models);
        [apply Hconstruct|].
      destruct (bool_decide (provider_name = PStr "google")).
      * destruct (getitem_tuple_raises model_name) as [e ->]. cbn. eauto.
      * unfold GetLLM.unknown. eauto.
    + rewrite (getattr_None _ _ Hmodel). cbn. eauto.
  - rewrite (getattr_Some _ _ _ Hprov). cbn. eauto.
Qed.

Lemma parsed_options_give_no_chat_model_witness :
  GetLLM.get_chat_model (Scenario.world [] [])
    (<["LLMProvider" := PList ["o"; "p"; "e"; "n"; "a"; "i"]]> TrainOptions.defaults)
    PNone (PStr "gpt-4")
  = Raise (AttributeError "list" "lower").
Proof.
  apply (parsed_options_give_no_chat_model _ [("LLMProvider", "openai")] _ PNone).
  evaluate.
Defined.

(** X14.  The model name only selects the branch; the constructor never
    sees it.  For every model of the OpenAI list [get_chat_model] builds
    [ChatOpenAI] with the provider name ["openai"] as its model, and for
    every model of the Claude list (under the provider name ["antropic"])
    [ChatAnthropic] with the model ["antropic"]: the outcome is the same
    for all models of a list. *)
Theorem model_name_never_reaches_constructor (w : World) (opt : Namespace)
    (model : string) :
  (In model GetLLM.openai_models ->
   GetLLM.get_chat_model w opt (PStr "openai") (PStr model)
   = try_except (GetLLM.construct w opt "ChatOpenAI" (PStr "openai"))
       (fun e => RuntimeError ("Failed to initialize OpenAI LLM: " +:+ exn_str e)))
  /\ (In model GetLLM.antropic_models ->
      GetLLM.get_chat_model w opt (PStr "antropic") (PStr model)
      = try_except (GetLLM.construct w opt "ChatAnthropic" (PStr "antropic"))
          (fun e => RuntimeError ("Failed to initialize Anthropic LLM: " +:+ exn_str e))).
Proof.
  split; intros Hin; cbn [In GetLLM.openai_models GetLLM.antropic_models] in Hin;
    repeat (destruct Hin as [<-|Hin]; [reflexivity|]); destruct Hin.
Qed.

Lemma model_name_never_reaches_constructor_witness :
  let opt : Namespace :=
    <["temperature" := PInt 0]> (<["max_tokens" := PInt 256]> {[ "timeout" := PInt 30 ]}) in
  GetLLM.get_chat_model (Scenario.world [] []) opt (PStr "openai") (PStr "gpt-4o-mini")
  = GetLLM.get_chat_model (Scenario.world [] []) opt (PStr "openai") (PStr "gpt-4").
Proof.
  cbv zeta.
  rewrite (proj1 (model_name_never_reaches_constructor _ _ "gpt-4o-mini"))
    by (vm_compute; tauto).
  rewrite (proj1 (model_name_never_reaches_constructor _ _ "gpt-4"))
    by (vm_compute; tauto).
  reflexivity.
Defined.

(** X15.  A provider name taken from the options is lower-cased before
    the dispatch: with [opt.LLMProvider] a string and no provider
    argument, [get_chat_model] behaves as when called with that string
    in lower case. *)
Theorem provider_option_is_lowercased (w : World) (opt : Namespace)
    (provider : string) (model_name : pyval) :
  opt !! "LLMProvider" = Some (PStr provider) ->
  GetLLM.get_chat_model w opt PNone model_name
  = GetLLM.get_chat_model w opt (PStr (lower provider)) model_name.
Proof.
  intros Hprov. unfold GetLLM.get_chat_model. cbn [truthy].
  rewrite (getattr_Some _ _ _ Hprov). cbn [bind GetLLM.py_lower].
  destruct (negb (String.eqb (lower provider) "")); reflexivity.
Qed.

Lemma provider_option_is_lowercased_witness :
  let opt : Namespace :=
    <["LLMProvider" := PStr "OpenAI"]>
      (<["temperature" := PInt 0]>
         (<["max_tokens" := PInt 256]> {[ "timeout" := PInt 30 ]})) in
  GetLLM.get_chat_model (Scenario.world [] []) opt PNone (PStr "gpt-4")
  = Ok (PStr "ChatOpenAI")
  /\ GetLLM.get_chat_model (Scenario.world [] []) opt (PStr "OpenAI") (PStr "gpt-4")
     = Raise (ValueError "Unknown LLM provider: OpenAI and model name: gpt-4").
Proof.
  cbv zeta. split; [|vm_compute; reflexivity].
  rewrite (provider_option_is_lowercased _ _ "OpenAI") by (vm_compute; reflexivity).
  vm_compute. reflexivity.
Defined.

(** X16.  For each of the five recognised provider names, given as the
    argument or through [opt.EmbeddingModel], [get_embedding_models]
    instantiates the class of that provider and returns the object, or
    re-raises the constructor's exception as [RuntimeError]; nothing
    else of the options is consulted. *)
Theorem recognised_embedding_provider (w : World) (opt : Namespace)
    (embedding_name : pyval) (provider cls : string) :
  py_or embedding_name (getattr_default opt "EmbeddingModel" PNone) = PStr provider ->
  In (provider, cls) embedding_classes ->
  GetEmbeddings.get_embedding_models w opt embedding_name
  = try_except (new_embeddings w cls)
      (fun e => RuntimeError ("Failed to initialize embeddings for "
                              +:+ provider +:+ ": " +:+ exn_str e)).
Proof.
  intros Hname Hin. unfold GetEmbeddings.get_embedding_models.
  fold (py_or embedding_name (getattr_default opt "EmbeddingModel" PNone)).
  rewrite Hname. cbn [In embedding_classes] in Hin.
  repeat (destruct Hin as [[= <- <-]|Hin]; [reflexivity|]). destruct Hin.
Qed.

Lemma recognised_embedding_provider_witness :
  GetEmbeddings.get_embedding_models (Scenario.world [] [])
    (<["EmbeddingModel" := PStr "cohere"]> TrainOptions.defaults) PNone
  = Ok (PStr "CohereEmbeddings").
Proof.
  rewrite (recognised_embedding_provider _ _ PNone "cohere" "CohereEmbeddings");
    [reflexivity | vm_compute; reflexivity | vm_compute; tauto].
Defined.

(** X17.  [get_embedding_models] lets out two kinds of exception only.
    When neither the argument nor [opt.EmbeddingModel] is a true value
    it raises the [ValueError] for a missing provider name, and it
    raises that [ValueError] in no other case; with a name, whatever
    goes wrong -- an unknown name included -- comes out as
    [RuntimeError] with the name and the text of the original exception
    (an exit request of the library, which is no [Exception], passes
    through). *)
Theorem embedding_errors (w : World) (opt : Namespace) (embedding_name : pyval) :
  let name := py_or embedding_name (getattr_default opt "EmbeddingModel" PNone) in
  let missing :=
    ValueError "No embedding provider specified (embedding_name or opt.EmbeddingModel)." in
  (truthy name = false ->
   GetEmbeddings.get_embedding_models w opt embedding_name = Raise missing)
  /\ (truthy name = true ->
      forall e,
        GetEmbeddings.get_embedding_models w opt embedding_name = Raise e ->
        (exists e0,
           is_Exception e0 = true
           /\ e = RuntimeError ("Failed to initialize embeddings for "
                                +:+ py_str name +:+ ": " +:+ exn_str e0))
        \/ is_Exception e = false)
  /\ (GetEmbeddings.get_embedding_models w opt embedding_name = Raise missing
      <-> truthy name = false).
Proof.
  intros name missing.
  assert (Hmissing : truthy name = false ->
            GetEmbeddings.get_embedding_models w opt embedding_name = Raise missing).
  { intros Hn. unfold GetEmbeddings.get_embedding_models.
    fold (py_or embedding_name (getattr_default opt "EmbeddingModel" PNone)).
    fold name. now rewrite Hn. }
  assert (Hnamed : truthy name = true ->
            forall e,
              GetEmbeddings.get_embedding_models w opt embedding_name = Raise e ->
              (exists e0,
                 is_Exception e0 = true
                 /\ e = RuntimeError ("Failed to initialize embeddings for "
                                      +:+ py_str name +:+ ": " +:+ exn_str e0))
              \/ is_Exception e = false).
  { intros Hn e. unfold GetEmbeddings.get_embedding_models.
    fold (py_or embedding_name (getattr_default opt "EmbeddingModel" PNone)).
    fold name. rewrite Hn. cbn [negb].
    match goal with |- try_except ?b ?h = _ -> _ => destruct b as [m|e0] end;
      cbn [try_except]; [discriminate|].
    destruct (is_Exception e0) eqn:He0; intros [= <-]; eauto. }
  split; [exact Hmissing|]. split; [exact Hnamed|]. split; [|exact Hmissing].
  intros Hraise. destruct (truthy name) eqn:Hn; [|reflexivity].
  destruct (Hnamed eq_refl _ Hraise) as [(e0 & _ & He)|He]; discriminate.
Qed.

Lemma embedding_errors_witness :
  GetEmbeddings.get_embedding_models (Scenario.world [] [])
    (<["EmbeddingModel" := PStr ""]> TrainOptions.defaults) PNone
  = Raise (ValueError
      "No embedding provider specified (embedding_name or opt.EmbeddingModel).")
  /\ GetEmbeddings.get_embedding_models (Scenario.world [] []) TrainOptions.defaults
       (PStr "huggingface")
     <> Raise (ValueError
          "No embedding provider specified (embedding_name or opt.EmbeddingModel).").
Proof.
  split.
  - apply (proj1 (embedding_errors (Scenario.world [] [])
                    (<["EmbeddingModel" := PStr ""]> TrainOptions.defaults) PNone)).
    vm_compute. reflexivity.
  - intros H.
    apply (proj1 (proj2 (proj2 (embedding_errors (Scenario.world [] [])
                                  TrainOptions.defaults (PStr "huggingface")))))
      in H.
    vm_compute in H. discriminate.
Defined.

(** ** Neo4jStore: further behaviour *)

Section Store.
Import GraphDb.
Context (w : World).

Lemma mtry_error {A} (m : M (St w) A) (h : exn -> exn) (s : St w) (e : exn) :
  error_of (fst (mtry m h s)) = Some e ->
  (exists e0, e = h e0) \/ is_Exception e = false.
Proof.
  unfold mtry. destruct (m s) as [[a|e0] s']; cbn; [discriminate|].
  destruct (is_Exception e0) eqn:He0; intros [= <-]; eauto.
Qed.

Lemma mtry_state {A} (m : M (St w) A) (h : exn -> exn) (s : St w) :
  snd (mtry m h s) = snd (m s).
Proof. unfold mtry. now destruct (m s). Qed.

Lemma server_store {A} (f : DB w -> result A * DB w) (s : St w) :
  fst (snd (server w f s)) = fst s.
Proof. unfold server. now destruct (f (snd s)). Qed.

End Store.

(** X18.  Once [_connection] has succeeded the store is usable: the
    connection it returns is the one kept in [store.graph], built from
    the four connection options, and a following [clear] or
    [add_graph_documents] reaches the server with it -- [clear] sends
    the one statement [MATCH (n) DETACH DELETE n;] -- and returns what
    the server answers, a failure re-raised as [RuntimeError]. *)
Theorem connect_then_use (w : World) (store : GraphDb.Neo4jStore) (db : DB w)
    (g : Neo4jGraph) (graph_documents : list GraphDocument) (include_source : bool) :
  GraphDb.connection_args (GraphDb._opt store) = Ok g ->
  neo4j_connect w g db = Ok tt ->
  let store' := {| GraphDb._opt := GraphDb._opt store; GraphDb.graph := Some g;
                   GraphDb.vector := GraphDb.vector store |} in
  GraphDb._connection w (store, db) = (Ok g, (store', db))
  /\ mbind (GraphDb._connection w) (fun _ => GraphDb.clear w) (store, db)
     = (try_except (fst (neo4j_query w g "MATCH (n) DETACH DELETE n;" db))
          (fun e => RuntimeError ("Failed to clear Neo4j database: " +:+ exn_str e)),
        (store', snd (neo4j_query w g "MATCH (n) DETACH DELETE n;" db)))
  /\ mbind (GraphDb._connection w)
       (fun _ => GraphDb.add_graph_documents w graph_documents include_source)
       (store, db)
     = (try_except
          (fst (neo4j_add_graph_documents w g graph_documents include_source db))
          (fun e => RuntimeError ("Failed to add documents to Neo4j: " +:+ exn_str e)),
        (store', snd (neo4j_add_graph_documents w g graph_documents include_source db))).
Proof.
  intros Hargs Hconn store'.
  assert (Hc : GraphDb._connection w (store, db) = (Ok g, (store', db))).
  { unfold GraphDb._connection, mtry, mbind, mlift, GraphDb.get_self, GraphDb.server,
      GraphDb.set_graph, mret. cbn [fst snd]. rewrite Hargs. cbn [fst snd].
    rewrite Hconn. reflexivity. }
  split; [exact Hc|]. split.
  - unfold mbind at 1. rewrite Hc.
    unfold GraphDb.clear, mtry, mbind, GraphDb.get_self, GraphDb.server.
    cbn [fst snd GraphDb.graph store'].
    now destruct (neo4j_query w g "MATCH (n) DETACH DELETE n;" db) as [[u|e] db'].
  - unfold mbind at 1. rewrite Hc.
    unfold GraphDb.add_graph_documents, mtry, mbind, GraphDb.get_self, GraphDb.server.
    cbn [fst snd GraphDb.graph store'].
    now destruct (neo4j_add_graph_documents w g graph_documents include_source db)
      as [[u|e] db'].
Qed.

Lemma connect_then_use_witness :
  let w := Scenario.world [] [] in
  let db : DB w := [([Scenario.candidates Scenario.chunk], true)] in
  mbind (GraphDb._connection w) (fun _ => GraphDb.clear w)
    (GraphDb.__init__ connection_opt, db)
  = (Ok tt,
     ({| GraphDb._opt := connection_opt; GraphDb.graph := Some Scenario.neo4j;
         GraphDb.vector := None |}, [])).
Proof.
  cbv zeta.
  exact (proj1 (proj2 (connect_then_use (Scenario.world [] [])
                         (GraphDb.__init__ connection_opt)
                         [([Scenario.candidates Scenario.chunk], true)]
                         Scenario.neo4j [] true eq_refl eq_refl))).
Defined.

(** X19.  With options that come from [TrainOptions] the store cannot
    connect and cannot build its indexes: the options declare
    [Neo4jURI], the store reads [uri].  For every accepted command line
    [_connection] raises [RuntimeError] before the server is contacted
    and leaves the store as it was, and so does [create_hybrid_indexes]
    on a connected store once [opt.embeddings] has been set. *)
Theorem parsed_options_cannot_connect (w : World) (argv : list (string * string))
    (opt : Namespace) (graph : option Neo4jGraph) (vector : option Neo4jVector)
    (g : Neo4jGraph) (embeddings : pyval) (db : DB w) :
  TrainOptions.parse argv = Ok opt ->
  GraphDb._connection w
    ({| GraphDb._opt := opt; GraphDb.graph := graph; GraphDb.vector := vector |}, db)
  = (Raise (RuntimeError
       "Failed to connect to Neo4j: 'Namespace' object has no attribute 'uri'"),
     ({| GraphDb._opt := opt; GraphDb.graph := graph; GraphDb.vector := vector |}, db))
  /\ GraphDb.create_hybrid_indexes w
       ({| GraphDb._opt := <["embeddings" := embeddings]> opt;
           GraphDb.graph := Some g; GraphDb.vector := vector |}, db)
     = (Raise (RuntimeError
          "Failed to create hybrid indexes: 'Namespace' object has no attribute 'uri'"),
        ({| GraphDb._opt := <["embeddings" := embeddings]> opt;
            GraphDb.graph := Some g; GraphDb.vector := vector |}, db)).
Proof.
  intros Hparse.
  assert (Huri : opt !! "uri" = None)
    by (apply (undeclared_option _ argv); [vm_compute; intuition discriminate | exact Hparse]).
  split.
  - unfold GraphDb._connection, mtry, mbind, mlift, GraphDb.get_self,
      GraphDb.connection_args.
    cbn [fst snd GraphDb._opt]. rewrite (getattr_None _ _ Huri). reflexivity.
  - unfold GraphDb.create_hybrid_indexes, mtry, mbind, mlift, GraphDb.get_self,
      GraphDb.vector_args, GraphDb.connection_args.
    cbn [fst snd GraphDb._opt GraphDb.graph].
    rewrite (getattr_Some _ "embeddings" embeddings) by apply lookup_insert_eq.
    cbn [bind].
    rewrite (getattr_None (<["embeddings" := embeddings]> opt) "uri")
      by (now rewrite lookup_insert_ne).
    reflexivity.
Qed.

Lemma parsed_options_cannot_connect_witness :
  GraphDb._connection (Scenario.world [] [])
    (GraphDb.__init__
       (<["Neo4jURI" := PStr "neo4j+s://db.example.org"]> TrainOptions.defaults), [])
  = (Raise (RuntimeError
       "Failed to connect to Neo4j: 'Namespace' object has no attribute 'uri'"),
     (GraphDb.__init__
        (<["Neo4jURI" := PStr "neo4j+s://db.example.org"]> TrainOptions.defaults), [])).
Proof.
  apply (parsed_options_cannot_connect (Scenario.world [] [])
           [("Neo4jURI", "neo4j+s://db.example.org")] _ None None Scenario.neo4j PNone).
  evaluate.
Defined.

(** X20.  As their docstrings say, [_connection], [clear],
    [add_graph_documents] and [create_hybrid_indexes] raise
    [RuntimeError] and nothing else, whatever goes wrong in the options
    or in the library (an exit request of the library, which is no
    [Exception], passes through). *)
Theorem store_methods_raise_RuntimeError (w : World) (s : GraphDb.St w)
    (graph_documents : list GraphDocument) (include_source : bool) (e : exn) :
  In (Some e)
     [ error_of (fst (GraphDb._connection w s));
       error_of (fst (GraphDb.clear w s));
       error_of (fst (GraphDb.add_graph_documents w graph_documents include_source s));
       error_of (fst (GraphDb.create_hybrid_indexes w s)) ] ->
  (exists msg, e = RuntimeError msg) \/ is_Exception e = false.
Proof.
  cbn [In]. intros [H|[H|[H|[H|[]]]]].
  - unfold GraphDb._connection in H. apply mtry_error in H as [[e0 ->]|H]; eauto.
  - unfold GraphDb.clear in H. apply mtry_error in H as [[e0 ->]|H]; eauto.
  - unfold GraphDb.add_graph_documents in H.
    apply mtry_error in H as [[e0 ->]|H]; eauto.
  - unfold GraphDb.create_hybrid_indexes, mbind, GraphDb.get_self in H.
    cbn [fst snd] in H. destruct (GraphDb.graph (fst s)).
    + apply mtry_error in H as [[e0 ->]|H]; eauto.
    + cbn in H. injection H as <-. eauto.
Qed.

Lemma store_methods_raise_RuntimeError_witness :
  let w := Scenario.world [] [] in
  let s : GraphDb.St w := (GraphDb.__init__ TrainOptions.defaults, []) in
  error_of (fst (GraphDb._connection w s))
  = Some (RuntimeError
            "Failed to connect to Neo4j: 'Namespace' object has no attribute 'uri'")
  /\ ((exists msg,
         RuntimeError
           "Failed to connect to Neo4j: 'Namespace' object has no attribute 'uri'"
         = RuntimeError msg)
      \/ is_Exception
           (RuntimeError
              "Failed to connect to Neo4j: 'Namespace' object has no attribute 'uri'")
         = false).
Proof.
  cbv zeta. split; [evaluate|].
  apply (store_methods_raise_RuntimeError (Scenario.world [] [])
           (GraphDb.__init__ TrainOptions.defaults, []) [] true).
  left. evaluate.
Defined.

(** X21.  Only a successful [_connection] changes the connection of a
    store.  [clear], [add_graph_documents], [create_hybrid_indexes] and
    the two searches leave [store.graph] as it is, whether they succeed
    or fail, and after [_connection] the store holds the connection that
    was returned or, on failure, the one it held before. *)
Theorem connection_is_stable (w : World) (s : GraphDb.St w)
    (graph_documents : list GraphDocument) (include_source hybrid with_score : bool)
    (query : string) (k : pyval) :
  GraphDb.graph (fst (snd (GraphDb.clear w s))) = GraphDb.graph (fst s)
  /\ GraphDb.graph
       (fst (snd (GraphDb.add_graph_documents w graph_documents include_source s)))
     = GraphDb.graph (fst s)
  /\ GraphDb.graph (fst (snd (GraphDb.create_hybrid_indexes w s)))
     = GraphDb.graph (fst s)
  /\ GraphDb.graph (fst (snd (GraphDb.search w hybrid query k with_score s)))
     = GraphDb.graph (fst s)
  /\ match fst (GraphDb._connection w s) with
     | Ok g => GraphDb.graph (fst (snd (GraphDb._connection w s))) = Some g
     | Raise _ => snd (GraphDb._connection w s) = s
     end.
Proof.
  destruct s as [store db]. cbn [fst]. split; [|split; [|split; [|split]]].
  - unfold GraphDb.clear. rewrite mtry_state. unfold mbind, GraphDb.get_self.
    cbn [fst snd]. destruct (GraphDb.graph store) eqn:Hg;
      [rewrite server_store | unfold mraise]; exact Hg.
  - unfold GraphDb.add_graph_documents. rewrite mtry_state.
    unfold mbind, GraphDb.get_self. cbn [fst snd].
    destruct (GraphDb.graph store) eqn:Hg;
      [rewrite server_store | unfold mraise]; exact Hg.
  - unfold GraphDb.create_hybrid_indexes, mbind at 1, GraphDb.get_self.
    cbn [fst snd]. destruct (GraphDb.graph store) as [g|] eqn:Hg; [|exact Hg].
    rewrite mtry_state. unfold mbind, mlift, GraphDb.server, GraphDb.set_vector, mret.
    cbn [fst snd]. destruct (GraphDb.vector_args (GraphDb._opt store)) as [v|e];
      [|exact Hg].
    destruct (neo4j_from_existing_graph w v db) as [[u|e] db']; exact Hg.
  - unfold GraphDb.search, mbind, GraphDb.get_self. cbn [fst snd].
    destruct (GraphDb.vector store) as [v|]; [|reflexivity].
    rewrite mtry_state. now rewrite server_store.
  - unfold GraphDb._connection, mtry, mbind, mlift, GraphDb.get_self, GraphDb.server,
      GraphDb.set_graph, mret. cbn [fst snd].
    destruct (GraphDb.connection_args (GraphDb._opt store)) as [g|e]; cbn [fst snd].
    + destruct (neo4j_connect w g db) as [u|e]; cbn [fst snd try_except];
        [reflexivity|]. now destruct (is_Exception e).
    + cbn [try_except]. now destruct (is_Exception e).
Qed.

(** X22.  Once [create_hybrid_indexes] has succeeded the searches work:
    the vector store built from the options is kept in [store.vector]
    and returned, and a following [similarity_search] or
    [hybrid_search] runs on it and returns the library's hits, a failure
    re-raised as [RuntimeError]. *)
Theorem index_then_search (w : World) (store : GraphDb.Neo4jStore) (db db1 : DB w)
    (g : Neo4jGraph) (v : Neo4jVector) (hybrid with_score : bool)
    (query : string) (k : pyval) :
  GraphDb.graph store = Some g ->
  GraphDb.vector_args (GraphDb._opt store) = Ok v ->
  neo4j_from_existing_graph w v db = (Ok tt, db1) ->
  let store' := {| GraphDb._opt := GraphDb._opt store;
                   GraphDb.graph := GraphDb.graph store;
                   GraphDb.vector := Some v |} in
  GraphDb.create_hybrid_indexes w (store, db) = (Ok v, (store', db1))
  /\ mbind (GraphDb.create_hybrid_indexes w)
       (fun _ => GraphDb.search w hybrid query k with_score) (store, db)
     = (try_except (fst (vector_search w v hybrid with_score query k db1))
          (fun e => RuntimeError
             ((if hybrid then "Hybrid search failed: "
               else "Similarity search failed: ") +:+ exn_str e)),
        (store', snd (vector_search w v hybrid with_score query k db1))).
Proof.
  intros Hg Hargs Hbuild store'.
  assert (Hc : GraphDb.create_hybrid_indexes w (store, db) = (Ok v, (store', db1))).
  { unfold GraphDb.create_hybrid_indexes, mtry, mbind, mlift, GraphDb.get_self,
      GraphDb.server, GraphDb.set_vector, mret. cbn [fst snd]. rewrite Hg, Hargs.
    cbn [fst snd]. rewrite Hbuild. reflexivity. }
  split; [exact Hc|]. unfold mbind at 1. rewrite Hc.
  unfold GraphDb.search, mtry, mbind, GraphDb.get_self, GraphDb.server.
  cbn [fst snd GraphDb.vector store'].
  now destruct (vector_search w v hybrid with_score query k db1) as [[h|e] db2].
Qed.

Lemma index_then_search_witness :
  let w := Scenario.world [] [] in
  let store := {| GraphDb._opt := index_opt; GraphDb.graph := Some Scenario.neo4j;
                  GraphDb.vector := None |} in
  fst (GraphDb.search w true "diabetes" (PInt 3) false (store, []))
  = Raise (AttributeError "Neo4jStore" "vector")
  /\ fst (mbind (GraphDb.create_hybrid_indexes w)
            (fun _ => GraphDb.search w true "diabetes" (PInt 3) false) (store, []))
     = Ok [].
Proof.
  cbv zeta. split; [reflexivity|].
  assert (Hv : GraphDb.vector_args index_opt = Ok index_vector)
    by (vm_compute; reflexivity).
  refine (eq_trans
            (f_equal fst
               (proj2 (index_then_search (Scenario.world [] [])
                         {| GraphDb._opt := index_opt;
                            GraphDb.graph := Some Scenario.neo4j;
                            GraphDb.vector := None |} [] [] Scenario.neo4j index_vector
                         true false "diabetes" (PInt 3) eq_refl Hv eq_refl))) _).
  reflexivity.
Defined.

(** ** create_knowledge_graph and the script: further behaviour *)

(** X23.  None of the four extraction settings of [TrainOptions]
    ([AllowedNodes], [AllowedRelationships], [NodeProperties],
    [RelationshipProperties]) reaches the graph transformer: for every
    accepted command line it is built with no allowed labels, no allowed
    relationship types and both property switches off, and
    [create_knowledge_graph] does what it does with empty options. *)
Theorem extraction_settings_are_never_read (w : World)
    (argv : list (string * string)) (opt : Namespace) (docs : list Document)
    (graph : option Neo4jGraph) (llm : pyval) (include_source : bool) (db : DB w) :
  TrainOptions.parse argv = Ok opt ->
  KnowledgeGraph.transformer_args opt = unrestricted
  /\ KnowledgeGraph.create_knowledge_graph w docs opt graph llm include_source db
     = KnowledgeGraph.create_knowledge_graph w docs ∅ graph llm include_source db.
Proof.
  intros Hparse.
  assert (Hargs : KnowledgeGraph.transformer_args opt = unrestricted).
  { unfold KnowledgeGraph.transformer_args, getattr_default, unrestricted.
    rewrite !(undeclared_option _ argv opt) by
      (exact Hparse || (vm_compute; intuition discriminate)).
    reflexivity. }
  split; [exact Hargs|].
  unfold KnowledgeGraph.create_knowledge_graph. now rewrite Hargs.
Qed.

Lemma extraction_settings_are_never_read_witness :
  KnowledgeGraph.transformer_args
    (<["RelationshipProperties" := PBool true]>
       (<["AllowedRelationships" := PStr "TREATED_BY"]> TrainOptions.defaults))
  = unrestricted.
Proof.
  apply (extraction_settings_are_never_read (Scenario.world [] [])
           [("AllowedRelationships", "TREATED_BY"); ("RelationshipProperties", "yes")]
           _ [] None PNone true []).
  evaluate.
Defined.

(** X24.  The number [create_knowledge_graph] returns is the number of
    graph documents the transformer produced for the chunks, and these
    are what the database received, in one [add_graph_documents] call
    with the caller's [include_source]; if the transformer fails, its
    exception comes out as it is and the database is untouched. *)
Theorem ingestion_count (w : World) (docs : list Document) (opt : Namespace)
    (g : Neo4jGraph) (llm : pyval) (include_source : bool) (db : DB w) :
  (forall n db',
     KnowledgeGraph.create_knowledge_graph w docs opt (Some g) llm include_source db
     = (Ok n, db') ->
     exists graph_documents,
       convert_to_graph_documents w llm (KnowledgeGraph.transformer_args opt) docs
       = Ok graph_documents
       /\ n = length graph_documents
       /\ neo4j_add_graph_documents w g graph_documents include_source db
          = (Ok tt, db'))
  /\ (forall e,
        convert_to_graph_documents w llm (KnowledgeGraph.transformer_args opt) docs
        = Raise e ->
        KnowledgeGraph.create_knowledge_graph w docs opt (Some g) llm include_source db
        = (Raise e, db)).
Proof.
  unfold KnowledgeGraph.create_knowledge_graph, mbind, mlift, mret. split.
  - intros n db'.
    destruct (convert_to_graph_documents w llm (KnowledgeGraph.transformer_args opt) docs)
      as [gds|e]; [|discriminate].
    destruct (neo4j_add_graph_documents w g gds include_source db) as [[[]|e] db1] eqn:Hadd;
      [|discriminate].
    intros [= <- <-]. exists gds. auto.
  - intros e ->. reflexivity.
Qed.

Lemma ingestion_count_witness :
  let w := Scenario.world [] [] in
  let db' : DB w :=
    [([Scenario.candidates Scenario.chunk; Scenario.candidates Scenario.chunk], false)] in
  KnowledgeGraph.create_knowledge_graph w [Scenario.chunk; Scenario.chunk] ∅
    (Some Scenario.neo4j) PNone false []
  = (Ok 2%nat, db')
  /\ exists graph_documents,
       convert_to_graph_documents w PNone (KnowledgeGraph.transformer_args ∅)
         [Scenario.chunk; Scenario.chunk]
       = Ok graph_documents
       /\ 2%nat = length graph_documents
       /\ neo4j_add_graph_documents w Scenario.neo4j graph_documents false []
          = (Ok tt, db').
Proof.
  cbv zeta. split; [reflexivity|].
  apply (proj1 (ingestion_count (Scenario.world [] []) [Scenario.chunk; Scenario.chunk]
                  ∅ Scenario.neo4j PNone false []) 2%nat
           [([Scenario.candidates Scenario.chunk; Scenario.candidates Scenario.chunk],
             false)]).
  reflexivity.
Defined.

(** X25.  Run as a script, [train.py] never enters [run]: after the
    options are parsed it calls [run(opt=opt)], and [run] takes no
    parameter, so every execution ends with the parser's exit or with
    [TypeError], the database untouched. *)
Theorem script_never_enters_run (w : World) (argv : list (string * string))
    (question : string) (db : DB w) :
  Script.main w argv question db
  = (Script.Raised (TypeError "run() got an unexpected keyword argument 'opt'"), db)
  \/ exists code, Script.main w argv question db = (Script.Raised (SystemExit code), db).
Proof.
  unfold Script.main.
  destruct (TrainOptions.parse argv) as [opt|e] eqn:Hparse.
  - left. reflexivity.
  - right. apply parse_args_Raise in Hparse as [code ->]. eauto.
Qed.
